(** * A shallow embedding of the block miner of [main.py]

    The program reads transaction records (JSON objects), filters them with
    [Transaction.is_valid], puts the first ten in a [Block], searches a nonce
    whose SHA-256 digest lies below a target ([Block.mine]) and appends the
    block to a [Blockchain].

    Conventions of the embedding.
    - A Python [str] is a Rocq [string]; the character with code [n] stands
      for the code point U+00[n], so the model covers text over the code
      points 0..255 exactly (ordering, UTF-8 encoding, escapes).
    - A Python [int] is a [Z]; JSON numbers with a fraction or an exponent
      (Python floats) are outside the model, and so is the cap that recent
      interpreters put on the number of decimal digits an int is printed
      with.
    - A Python [dict] loaded from JSON is an association list in insertion
      order, looked up from the front; a dict has no repeated key.
    - A call that may raise returns [result]: [Ok v] or [Raise e].
    - The unbounded [while True] of [mine] is run with a step budget.

    What the model leaves out.
    - A str with a code point above 255 has no counterpart here.  Among
      these are the lone surrogates, which [json.load] can deliver and on
      which [s.encode()] raises UnicodeEncodeError: [Py.encode] below never
      fails.  The exception is declared all the same, and the statements
      on what [merkle_root], [mine_block] and [main] cannot raise leave
      room for it.
    - A float has no counterpart either; the statements on the records that
      [is_valid] accepts speak of integer values.
    - Every integer is printed; where it matters, the statements assume
      integers of at most 4300 decimal digits, which recent interpreters
      need to print one. *)

From Stdlib Require Import ZArith Ascii String List Lia DecimalString.
From stdpp Require Import gmap strings list sorting.

Local Open Scope Z_scope.

(** ** Exceptions and the error monad *)

Inductive exn : Type :=
| KeyError
| IndexError
| TypeError
| ValueError
| AttributeError
| AssertionError
| UnicodeEncodeError.

Inductive result (A : Type) : Type :=
| Ok (a : A)
| Raise (e : exn).

Arguments Ok {A} a.
Arguments Raise {A} e.

#[global] Instance result_ret : MRet result := @Ok.

#[global] Instance result_bind : MBind result :=
  λ A B f m, match m with Ok a => f a | Raise e => Raise e end.

(** ** JSON values as Python objects *)

#[warnings="-register-all"]
Inductive json : Type :=
| JNull
| JBool (b : bool)
| JInt (z : Z)
| JStr (s : string)
| JList (l : list json)
| JDict (d : list (string * json)).

Abbreviation pydict := (list (string * json)).

Module Py.

(** [str(n)] and [f"{n}"] for an int. *)
Definition str_int (z : Z) : string := NilZero.string_of_int (Z.to_int z).

Definition chars (s : string) : list ascii := list_ascii_of_string s.

Definition code (c : ascii) : Z := Z.of_N (N_of_ascii c).

Definition hex_digit (n : Z) : ascii :=
  ascii_of_N (Z.to_N (if n <? 10 then 48 + n else 87 + n)).

(** Two lowercase hexadecimal digits of a code below 256. *)
Definition hex2 (n : Z) : string :=
  String (hex_digit (n / 16 mod 16)) (String (hex_digit (n mod 16)) "").

(** [sep.join(l)] and [''.join(l)]. *)
Fixpoint join (sep : string) (l : list string) : string :=
  match l with
  | [] => ""
  | [x] => x
  | x :: l' => x +:+ sep +:+ join sep l'
  end.

Fixpoint concat (l : list string) : string :=
  match l with
  | [] => ""
  | x :: l' => x +:+ concat l'
  end.

(** [k in d] and [d[k]] for a dict [d]. *)
Fixpoint dict_lookup (k : string) (d : pydict) : option json :=
  match d with
  | [] => None
  | (k', v) :: d' => if String.eqb k k' then Some v else dict_lookup k d'
  end.

Definition key_in (k : string) (d : pydict) : bool :=
  match dict_lookup k d with Some _ => true | None => false end.

Definition dict_getitem (d : pydict) (k : string) : result json :=
  match dict_lookup k d with Some v => Ok v | None => Raise KeyError end.

(** [v[k]] for a string key [k]: only a dict can be subscripted by a str. *)
Definition getitem (v : json) (k : string) : result json :=
  match v with
  | JDict d => dict_getitem d k
  | _ => Raise TypeError
  end.

(** [v[0]]. A JSON dict has str keys only, so [d[0]] is a KeyError. *)
Definition getitem0 (v : json) : result json :=
  match v with
  | JList (x :: _) => Ok x
  | JList [] => Raise IndexError
  | JStr (String c _) => Ok (JStr (String c ""))
  | JStr EmptyString => Raise IndexError
  | JDict _ => Raise KeyError
  | _ => Raise TypeError
  end.

(** [v.get(k, False)]. *)
Definition get_or_false (v : json) (k : string) : result json :=
  match v with
  | JDict d => Ok (default (JBool false) (dict_lookup k d))
  | _ => Raise AttributeError
  end.

(** Truth value of an object, as [not v] and [any] test it. *)
Definition truthy (v : json) : bool :=
  match v with
  | JNull => false
  | JBool b => b
  | JInt z => negb (z =? 0)
  | JStr s => negb (String.eqb s "")
  | JList l => match l with [] => false | _ => true end
  | JDict d => match d with [] => false | _ => true end
  end.

(** The items a [for] loop over [v] visits. *)
Definition iter (v : json) : result (list json) :=
  match v with
  | JList l => Ok l
  | JStr s => Ok (map (λ c, JStr (String c "")) (chars s))
  | JDict d => Ok (map (λ kv, JStr (fst kv)) d)
  | _ => Raise TypeError
  end.

Definition len (v : json) : result Z :=
  match v with
  | JList l => Ok (Z.of_nat (length l))
  | JStr s => Ok (Z.of_nat (String.length s))
  | JDict d => Ok (Z.of_nat (length d))
  | _ => Raise TypeError
  end.

(** [v == n] for an int literal [n]; [True == 1] and [False == 0]. *)
Definition eq_int (v : json) (n : Z) : bool :=
  match v with
  | JInt z => (z =? n)
  | JBool b => (Z.b2z b =? n)
  | _ => false
  end.

(** [v > n] and [v < n] for an int literal [n]. *)
Definition gt_int (v : json) (n : Z) : result bool :=
  match v with
  | JInt z => Ok (n <? z)
  | JBool b => Ok (n <? Z.b2z b)
  | _ => Raise TypeError
  end.

Definition lt_int (v : json) (n : Z) : result bool :=
  match v with
  | JInt z => Ok (z <? n)
  | JBool b => Ok (Z.b2z b <? n)
  | _ => Raise TypeError
  end.

(** [acc + v] inside [sum], where [acc] is an int. *)
Definition int_add (acc : Z) (v : json) : result Z :=
  match v with
  | JInt z => Ok (acc + z)
  | JBool b => Ok (acc + Z.b2z b)
  | _ => Raise TypeError
  end.

(** [v + s] for a str [s]. *)
Definition add_str (v : json) (s : string) : result string :=
  match v with
  | JStr t => Ok (t +:+ s)
  | _ => Raise TypeError
  end.

(** [k in v] for a str [k]. *)
Definition contains_str (k : string) (v : json) : result bool :=
  match v with
  | JDict d => Ok (key_in k d)
  | JStr s => Ok (match String.index 0 k s with Some _ => true | None => false end)
  | JList l =>
      Ok (existsb (λ x, match x with JStr s => String.eqb s k | _ => false end) l)
  | _ => Raise TypeError
  end.

(** [any(cond(x) for x in l)]: stops at the first true item. *)
Fixpoint any {A : Type} (cond : A → result bool) (l : list A) : result bool :=
  match l with
  | [] => Ok false
  | x :: l' => b ← cond x; if b : bool then Ok true else any cond l'
  end.

(** [sum(item(x) for x in l)], started at [acc]. *)
Fixpoint sum {A : Type} (item : A → result json) (l : list A) (acc : Z)
  : result Z :=
  match l with
  | [] => Ok acc
  | x :: l' => v ← item x; acc' ← int_add acc v; sum item l' acc'
  end.

(** *** [repr] and [str] *)

Definition dquote : ascii := "034"%char.

Definition printable (n : Z) : bool :=
  ((32 <=? n) && (n <? 127) || (161 <=? n) && negb (n =? 173)).

Definition repr_char (quote : ascii) (c : ascii) : string :=
  let n := code c in
  if Ascii.eqb c quote || Ascii.eqb c "\" then String "\" (String c "")
  else if (n =? 9) then "\t"
  else if (n =? 10) then "\n"
  else if (n =? 13) then "\r"
  else if printable n then String c ""
  else "\x" +:+ hex2 n.

Definition repr_str (s : string) : string :=
  let cs := chars s in
  let quote : ascii :=
    if existsb (Ascii.eqb "'") cs && negb (existsb (Ascii.eqb dquote) cs)
    then dquote else "'"%char in
  String quote (concat (map (repr_char quote) cs)) +:+ String quote "".

Fixpoint repr (v : json) : string :=
  match v with
  | JNull => "None"
  | JBool true => "True"
  | JBool false => "False"
  | JInt z => str_int z
  | JStr s => repr_str s
  | JList l => "[" +:+ join ", " (map repr l) +:+ "]"
  | JDict d =>
      "{" +:+ join ", " (map (λ kv, repr_str (fst kv) +:+ ": " +:+ repr (snd kv)) d)
      +:+ "}"
  end.

Definition str (v : json) : string :=
  match v with
  | JStr s => s
  | _ => repr v
  end.

(** *** [json.dumps] with its defaults *)

Definition dumps_char (c : ascii) : string :=
  let n := code c in
  if (n =? 34) then String "\" (String dquote "")
  else if (n =? 92) then "\\"
  else if (n =? 10) then "\n"
  else if (n =? 13) then "\r"
  else if (n =? 9) then "\t"
  else if (n =? 8) then "\b"
  else if (n =? 12) then "\f"
  else if ((32 <=? n) && (n <? 127)) then String c ""
  else "\u00" +:+ hex2 n.

Definition dumps_str (s : string) : string :=
  String dquote (concat (map dumps_char (chars s))) +:+ String dquote "".

Fixpoint dumps (v : json) : string :=
  match v with
  | JNull => "null"
  | JBool true => "true"
  | JBool false => "false"
  | JInt z => str_int z
  | JStr s => dumps_str s
  | JList l => "[" +:+ join ", " (map dumps l) +:+ "]"
  | JDict d =>
      "{" +:+ join ", " (map (λ kv, dumps_str (fst kv) +:+ ": " +:+ dumps (snd kv)) d)
      +:+ "}"
  end.

(** *** [s.encode()]: UTF-8 bytes of a str over the code points 0..255 *)

Definition encode_char (c : ascii) : list Z :=
  let n := code c in
  if (n <? 128) then [n]
  else [Z.lor 192 (Z.shiftr n 6); Z.lor 128 (Z.land n 63)].

Definition encode (s : string) : list Z := flat_map encode_char (chars s).

(** The character that the first one or two bytes of an encoding stand
    for; it serves to show that [encode] loses nothing. *)
Definition decode_first (bs : list Z) : option ascii :=
  match bs with
  | [] => None
  | b :: r =>
      if b <? 128 then Some (ascii_of_N (Z.to_N b))
      else
        match r with
        | [] => None
        | b' :: _ =>
            Some (ascii_of_N (Z.to_N (Z.lor (Z.shiftl (Z.land b 3) 6) (Z.land b' 63))))
        end
  end.

(** *** [int(s, 16)] *)

(** White space skipped around the number: the ASCII blanks and, in text
    that is not plain ASCII, U+0085 and U+00A0. *)
Definition is_space (c : ascii) : bool :=
  let n := code c in
  (9 <=? n) && (n <=? 13) || (n =? 32) || (n =? 133) || (n =? 160).

Definition digit_value (c : ascii) : option Z :=
  let n := code c in
  if (48 <=? n) && (n <=? 57) then Some (n - 48)
  else if (97 <=? n) && (n <=? 102) then Some (n - 87)
  else if (65 <=? n) && (n <=? 70) then Some (n - 55)
  else None.

Fixpoint skip_spaces (cs : list ascii) : list ascii :=
  match cs with
  | c :: r => if is_space c then skip_spaces r else cs
  | [] => []
  end.

(** Digits, with single underscores allowed between two digits; [pending]
    records that the previous character was an underscore. *)
Fixpoint digits (acc : Z) (pending : bool) (cs : list ascii)
  : option (Z * list ascii) :=
  match cs with
  | c :: r =>
      match digit_value c with
      | Some d => digits (16 * acc + d) false r
      | None =>
          if pending then None
          else if Ascii.eqb c "_" then digits acc true r
          else Some (acc, cs)
      end
  | [] => if pending then None else Some (acc, [])
  end.

Definition split_sign (cs : list ascii) : Z * list ascii :=
  match cs with
  | c :: r =>
      if Ascii.eqb c "+" then (1, r)
      else if Ascii.eqb c "-" then (-1, r)
      else (1, cs)
  | [] => (1, [])
  end.

(** An optional [0x] or [0X], and one underscore after it. *)
Definition skip_prefix (cs : list ascii) : list ascii :=
  match cs with
  | z :: x :: r =>
      if Ascii.eqb z "0" && (Ascii.eqb x "x" || Ascii.eqb x "X") then
        match r with
        | u :: r' => if Ascii.eqb u "_" then r' else r
        | [] => r
        end
      else cs
  | _ => cs
  end.

Definition int16 (s : string) : result Z :=
  let '(sign, cs) := split_sign (skip_spaces (chars s)) in
  let cs := skip_prefix cs in
  match cs with
  | c :: _ =>
      match digit_value c with
      | Some _ =>
          match digits 0 false cs with
          | Some (v, rest) =>
              match skip_spaces rest with
              | [] => Ok (sign * v)
              | _ :: _ => Raise ValueError
              end
          | None => Raise ValueError
          end
      | None => Raise ValueError
      end
  | [] => Raise ValueError
  end.

End Py.

(** ** SHA-256 (FIPS 180-4), as [hashlib.sha256] computes it

    Words are integers below [2^32]; bytes are integers below 256. *)

Module SHA256.

Definition mask32 (x : Z) : Z := Z.land x 4294967295.

Definition rotr (n x : Z) : Z :=
  Z.lor (Z.shiftr x n) (mask32 (Z.shiftl x (32 - n))).

Definition xor3 (x y z : Z) : Z := Z.lxor (Z.lxor x y) z.

Definition ch (e f g : Z) : Z :=
  Z.lxor (Z.land e f) (Z.land (Z.lxor e 4294967295) g).

Definition maj (a b c : Z) : Z :=
  xor3 (Z.land a b) (Z.land a c) (Z.land b c).

Definition big_sigma0 (a : Z) : Z := xor3 (rotr 2 a) (rotr 13 a) (rotr 22 a).

Definition big_sigma1 (e : Z) : Z := xor3 (rotr 6 e) (rotr 11 e) (rotr 25 e).

Definition small_sigma0 (w : Z) : Z := xor3 (rotr 7 w) (rotr 18 w) (Z.shiftr w 3).

Definition small_sigma1 (w : Z) : Z := xor3 (rotr 17 w) (rotr 19 w) (Z.shiftr w 10).

(** The round constants are the first 32 bits of the fractional parts of the
    cube roots of the first 64 primes, the initial state those of the square
    roots of the first 8 primes. *)
Definition is_prime (n : Z) : bool :=
  forallb (λ d, negb (n mod d =? 0)) (seqZ 2 (n - 2)).

Definition primes64 : list Z := filter (λ n, is_prime n = true) (seqZ 2 310).

(** The largest [r] below [2^bits] with [r^k <= n], found bit by bit. *)
Fixpoint iroot (k : Z) (bits : nat) (n r : Z) : Z :=
  match bits with
  | O => r
  | S b =>
      let r' := r + 2 ^ Z.of_nat b in
      iroot k b n (if r' ^ k <=? n then r' else r)
  end.

Definition root_fraction (k p : Z) : Z := mask32 (iroot k 40 (p * 2 ^ (32 * k)) 0).

Definition K : list Z := Eval vm_compute in map (root_fraction 3) primes64.

Definition H0 : list Z := Eval vm_compute in map (root_fraction 2) (take 8 primes64).

(** Padding: a one bit, zeros up to 56 modulo 64 bytes, the bit length on 8
    bytes. *)
Definition big_endian (n : nat) (x : Z) : list Z :=
  map (λ i, Z.land (Z.shiftr x (8 * Z.of_nat i)) 255) (rev (seq 0 n)).

Definition pad (msg : list Z) : list Z :=
  let len := Z.of_nat (length msg) in
  msg ++ [128] ++ repeat 0 (Z.to_nat ((55 - len) mod 64)) ++ big_endian 8 (8 * len).

Fixpoint words (bs : list Z) : list Z :=
  match bs with
  | b0 :: b1 :: b2 :: b3 :: r => (((b0 * 256 + b1) * 256 + b2) * 256 + b3) :: words r
  | _ => []
  end.

(** The message schedule, grown at the front of the reversed list:
    [r] holds [W(t-1), W(t-2), ...]. *)
Definition extend (r : list Z) : list Z :=
  match r with
  | _ :: w2 :: _ :: _ :: _ :: _ :: w7 :: _ :: _ :: _ :: _ :: _ :: _ :: _ :: w15 :: w16 :: _ =>
      mask32 (small_sigma1 w2 + w7 + small_sigma0 w15 + w16) :: r
  | _ => r
  end.

Definition schedule (block : list Z) : list Z :=
  rev (Nat.iter 48 extend (rev block)).

Definition state : Type := Z * Z * Z * Z * Z * Z * Z * Z.

Definition round (s : state) (kw : Z * Z) : state :=
  let '(a, b, c, d, e, f, g, h) := s in
  let t1 := h + big_sigma1 e + ch e f g + fst kw + snd kw in
  let t2 := big_sigma0 a + maj a b c in
  (mask32 (t1 + t2), a, b, c, mask32 (d + t1), e, f, g).

Definition compress (s : state) (block : list Z) : state :=
  let '(a, b, c, d, e, f, g, h) := s in
  let '(a', b', c', d', e', f', g', h') := foldl round s (zip K (schedule block)) in
  (mask32 (a + a'), mask32 (b + b'), mask32 (c + c'), mask32 (d + d'),
   mask32 (e + e'), mask32 (f + f'), mask32 (g + g'), mask32 (h + h')).

Fixpoint process (n : nat) (s : state) (ws : list Z) : state :=
  match n with
  | O => s
  | S n' => process n' (compress s (take 16 ws)) (drop 16 ws)
  end.

Definition initial : state :=
  match H0 with
  | [a; b; c; d; e; f; g; h] => (a, b, c, d, e, f, g, h)
  | _ => (0, 0, 0, 0, 0, 0, 0, 0)
  end.

Definition digest_words (msg : list Z) : list Z :=
  let ws := words (pad msg) in
  let '(a, b, c, d, e, f, g, h) := process (length ws / 16) initial ws in
  [a; b; c; d; e; f; g; h].

(** The eight hexadecimal digits of a word, most significant first. *)
Definition nibbles (w : Z) : list Z :=
  map (λ i, Z.land (Z.shiftr w (4 * i)) 15) [7; 6; 5; 4; 3; 2; 1; 0].

Definition hex_nibbles (msg : list Z) : list Z :=
  flat_map nibbles (digest_words msg).

(** [hashlib.sha256(msg).hexdigest()] *)
Definition hexdigest (msg : list Z) : string :=
  string_of_list_ascii (map Py.hex_digit (hex_nibbles msg)).

End SHA256.

(** [hashlib.sha256(s.encode()).hexdigest()] *)
Definition sha256_hex (s : string) : string := SHA256.hexdigest (Py.encode s).

(** ** class Transaction *)

Module Transaction.

Record t : Type := mk {
  json_data : pydict;
  utxo_set : gmap string Z
}.

(** [self.json_data["vin"][0]["txid"]] *)
Definition txid (tx : t) : result json :=
  vin ← Py.dict_getitem (json_data tx) "vin";
  first ← Py.getitem0 vin;
  Py.getitem first "txid".

Definition validate_witness_data (tx : t) : bool := true.

(** [vin["txid"] + str(vin["vout"])], the key looked up in the UTXO set. *)
Definition utxo_key (vin : json) : result string :=
  id ← Py.getitem vin "txid";
  vout ← Py.getitem vin "vout";
  Py.add_str id (Py.str vout).

Definition in_utxo_set (tx : t) (vin : json) : result bool :=
  key ← utxo_key vin;
  Ok (bool_decide (is_Some (utxo_set tx !! key))).

Definition prevout_value (vin : json) : result json :=
  prevout ← Py.getitem vin "prevout";
  Py.getitem prevout "value".

Definition marked_coinbase (vin : json) : result bool :=
  flag ← Py.get_or_false vin "is_coinbase";
  Ok (Py.truthy flag).

(** The body of [is_valid], one [if] of the source after the other. *)
Definition is_valid (tx : t) : result bool :=
  let d := json_data tx in
  (* "version" not in d or d["version"] not in [1, 2] *)
  c1 ← (if negb (Py.key_in "version" d) then Ok true
        else version ← Py.dict_getitem d "version";
             Ok (negb (Py.eq_int version 1 || Py.eq_int version 2)));
  if c1 : bool then Ok false else
  (* "locktime" not in d or not (d["locktime"] == 0 or d["locktime"] > 0) *)
  c2 ← (if negb (Py.key_in "locktime" d) then Ok true
        else locktime ← Py.dict_getitem d "locktime";
             if Py.eq_int locktime 0 then Ok false
             else positive ← Py.gt_int locktime 0; Ok (negb positive));
  if c2 : bool then Ok false else
  (* not d["vin"] or not d["vout"] *)
  c3 ← (vin ← Py.dict_getitem d "vin";
        if negb (Py.truthy vin) then Ok true
        else vout ← Py.dict_getitem d "vout"; Ok (negb (Py.truthy vout)));
  if c3 : bool then Ok false else
  (* len(json.dumps(d).encode('utf-8')) > 100000 *)
  if 100000 <? Z.of_nat (length (Py.encode (Py.dumps (JDict d)))) then Ok false else
  (* any(vin["txid"] + str(vin["vout"]) in utxo_set for vin in d["vin"]) *)
  vin ← Py.dict_getitem d "vin";
  inputs ← Py.iter vin;
  c5 ← Py.any (in_utxo_set tx) inputs;
  if c5 : bool then Ok false else
  (* any(vout["value"] < 0 for vout in d["vout"]) *)
  vout ← Py.dict_getitem d "vout";
  outputs ← Py.iter vout;
  c6 ← Py.any (λ o, value ← Py.getitem o "value"; Py.lt_int value 0) outputs;
  if c6 : bool then Ok false else
  (* sum(vin["prevout"]["value"] ...) < sum(vout["value"] ...) *)
  total_in ← Py.sum prevout_value inputs 0;
  total_out ← Py.sum (λ o, Py.getitem o "value") outputs 0;
  if total_in <? total_out then Ok false else
  (* coinbase rule *)
  is_coinbase ← Py.any marked_coinbase inputs;
  c8 ← (if is_coinbase : bool then
          n ← Py.len vin;
          if negb (n =? 1) then Ok true
          else first ← Py.getitem0 vin; Py.contains_str "prevout" first
        else Ok false);
  if c8 : bool then Ok false else
  (* witness hook *)
  if Py.key_in "witness" d && negb (validate_witness_data tx) then Ok false else
  Ok true.

End Transaction.

(** ** class Block *)

Module Block.

Record t : Type := mk {
  transactions : list Transaction.t;
  previous_hash : string;
  nonce : Z;
  hash : string
}.

Definition set_hash (h : string) (b : t) : t :=
  mk (transactions b) (previous_hash b) (nonce b) h.

Definition set_nonce (n : Z) (b : t) : t :=
  mk (transactions b) (previous_hash b) n (hash b).

Definition as_str (v : json) : option string :=
  match v with JStr s => Some s | _ => None end.

(** [sorted] on strings: Python's stable merge sort with the code point
    order, which is [String.le]. *)
Definition sorted (l : list string) : list string := merge_sort String.le l.

(** [''.join(sorted(tx.txid for tx in self.transactions))], hashed.  The
    txids are collected in order, so the first failing accessor raises.  A
    txid that is not a str makes [sorted] or [join] raise TypeError. *)
Definition merkle_root (b : t) : result string :=
  txids ← mapM Transaction.txid (transactions b);
  match mapM as_str txids with
  | Some ids => Ok (sha256_hex (Py.concat (sorted ids)))
  | None => Raise TypeError
  end.

(** The string that [calculate_hash] feeds to SHA-256 at nonce [n]. *)
Definition preimage (prev : string) (n : Z) (root : string) : string :=
  prev +:+ Py.str_int n +:+ root.

(** The integer [int(hash, 16)] that the loop of [mine] compares with the
    target when the nonce is [n] and the Merkle root is [root]. *)
Definition hash_value (prev : string) (n : Z) (root : string) : result Z :=
  Py.int16 (sha256_hex (preimage prev n root)).

Definition below_target (b : t) (root : string) (target n : Z) : Prop :=
  ∃ v, hash_value (previous_hash b) n root = Ok v ∧ v < target.

Definition calculate_hash (b : t) : result string :=
  root ← merkle_root b;
  Ok (sha256_hex (preimage (previous_hash b) (nonce b) root)).

(** The [while True] loop of [mine], with a budget of iterations; [None]
    means that the budget ran out before the loop left. *)
Fixpoint mine_loop (fuel : nat) (target : Z) (b : t) : option (result t) :=
  match fuel with
  | O => None
  | S fuel' =>
      match calculate_hash b with
      | Raise e => Some (Raise e)
      | Ok h =>
          let b := set_hash h b in
          match Py.int16 h with
          | Raise e => Some (Raise e)
          | Ok v =>
              if v <? target then Some (Ok b)
              else mine_loop fuel' target (set_nonce (nonce b + 1) b)
          end
      end
  end.

Definition mine (fuel : nat) (b : t) (difficulty : string) : option (result t) :=
  if negb (String.length difficulty =? 64)%nat then Some (Raise AssertionError)
  else
    match Py.int16 difficulty with
    | Raise e => Some (Raise e)
    | Ok target => mine_loop fuel target b
    end.

End Block.

(** ** class Blockchain *)

Module Blockchain.

Record t : Type := mk { blocks : list Block.t }.

(** [self.blocks.append(block)] *)
Definition add_block (chain : t) (block : Block.t) : result t :=
  Ok (mk (blocks chain ++ [block])).

End Blockchain.

(** ** class Miner *)

Module Miner.

Record t : Type := mk {
  mempool_path : string;
  transactions : list Transaction.t;
  blockchain : Blockchain.t;
  difficulty : string;
  utxo_set : gmap string Z
}.

Definition init (path : string) : t :=
  mk path [] (Blockchain.mk [])
     "0000ffff00000000000000000000000000000000000000000000000000000000" ∅.

(** One turn of the loop of [load_transactions], on a record already read
    from its file. *)
Definition load_transaction (m : t) (data : pydict) : result t :=
  let transaction := Transaction.mk data (utxo_set m) in
  ok ← Transaction.is_valid transaction;
  Ok (if ok : bool
      then mk (mempool_path m) (transactions m ++ [transaction]) (blockchain m)
              (difficulty m) (utxo_set m)
      else m).

Fixpoint load_transactions (m : t) (records : list pydict) : result t :=
  match records with
  | [] => Ok m
  | data :: rest => m' ← load_transaction m data; load_transactions m' rest
  end.

(** [self.transactions[:10]] *)
Definition select_transactions_for_block (m : t) : list Transaction.t :=
  take 10 (transactions m).

Definition genesis_hash : string :=
  "0000000000000000000000000000000000000000000000000000000000000000".

Definition mine_block (fuel : nat) (m : t) : option (result (t * Block.t)) :=
  let previous_hash :=
    match last (Blockchain.blocks (blockchain m)) with
    | None => genesis_hash
    | Some tip => Block.hash tip
    end in
  let new_block :=
    Block.mk (select_transactions_for_block m) previous_hash 0 "" in
  match Block.mine fuel new_block (difficulty m) with
  | None => None
  | Some (Raise e) => Some (Raise e)
  | Some (Ok sealed) =>
      match Blockchain.add_block (blockchain m) sealed with
      | Raise e => Some (Raise e)
      | Ok chain =>
          Some (Ok (mk (mempool_path m) (transactions m) chain (difficulty m)
                       (utxo_set m), sealed))
      end
  end.

End Miner.

(** ** main *)

Module Main.





End Main.

(** ** Well-formed records

    The shape that [is_valid] accepts, written as a predicate. *)

(** The integer an int or a bool counts for in a comparison or a sum. *)
Definition int_value (v : json) : option Z :=
  match v with
  | JInt z => Some z
  | JBool b => Some (Z.b2z b)
  | _ => None
  end.

Definition total (values : list Z) : Z := foldr Z.add 0 values.

(** Every integer of a value has at most 4300 decimal digits, the most that
    [str] and [json.dumps] print in an interpreter with the default digit
    limit. *)
Fixpoint small_ints (v : json) : Prop :=
  match v with
  | JInt z => Z.abs z < 10 ^ 4300
  | JList l =>
      (fix all (l : list json) : Prop :=
         match l with
         | [] => True
         | x :: r => small_ints x ∧ all r
         end) l
  | JDict d =>
      (fix all (d : pydict) : Prop :=
         match d with
         | [] => True
         | kv :: r => small_ints (snd kv) ∧ all r
         end) d
  | _ => True
  end.

Definition serialized_size (d : pydict) : Z :=
  Z.of_nat (length (Py.encode (Py.dumps (JDict d)))).

Definition good_version (d : pydict) : Prop :=
  ∃ v z, Py.dict_lookup "version" d = Some v
    ∧ int_value v = Some z ∧ (z = 1 ∨ z = 2).

Definition good_locktime (d : pydict) : Prop :=
  ∃ v z, Py.dict_lookup "locktime" d = Some v ∧ int_value v = Some z ∧ 0 ≤ z.

(** An input worth [value]: a dict with a str txid and a vout whose key is
    not in the UTXO set, a prevout dict with an integer value, and no true
    [is_coinbase] mark. *)
Definition good_input (utxo : gmap string Z) (vin : json) (value : Z) : Prop :=
  ∃ fields id vout prevout v,
    vin = JDict fields
    ∧ Py.dict_lookup "txid" fields = Some (JStr id)
    ∧ Py.dict_lookup "vout" fields = Some vout
    ∧ utxo !! (id +:+ Py.str vout) = None
    ∧ Py.dict_lookup "prevout" fields = Some (JDict prevout)
    ∧ Py.dict_lookup "value" prevout = Some v
    ∧ int_value v = Some value
    ∧ Py.truthy (default (JBool false) (Py.dict_lookup "is_coinbase" fields)) = false.

Definition good_output (vout : json) (value : Z) : Prop :=
  ∃ fields v,
    vout = JDict fields
    ∧ Py.dict_lookup "value" fields = Some v
    ∧ int_value v = Some value
    ∧ 0 ≤ value.

Definition well_formed (tx : Transaction.t) : Prop :=
  let d := Transaction.json_data tx in
  good_version d ∧ good_locktime d ∧ serialized_size d ≤ 100000
  ∧ ∃ inputs outputs paid_in paid_out,
      Py.dict_lookup "vin" d = Some (JList inputs) ∧ inputs ≠ []
      ∧ Py.dict_lookup "vout" d = Some (JList outputs) ∧ outputs ≠ []
      ∧ Forall2 (good_input (Transaction.utxo_set tx)) inputs paid_in
      ∧ Forall2 good_output outputs paid_out
      ∧ total paid_out ≤ total paid_in.

(** The ledger invariant: the first block points to the genesis value and
    every later block to the hash of the block before it. *)
Fixpoint linked_from (prev : string) (blocks : list Block.t) : Prop :=
  match blocks with
  | [] => True
  | b :: rest => Block.previous_hash b = prev ∧ linked_from (Block.hash b) rest
  end.

Definition linked (chain : Blockchain.t) : Prop :=
  linked_from Miner.genesis_hash (Blockchain.blocks chain).

(** A lowercase hexadecimal digit. *)
Definition is_hex_digit (c : ascii) : bool :=
  let n := Py.code c in
  (48 <=? n) && (n <=? 57) || (97 <=? n) && (n <=? 102).

(** ** The tests of [is_valid], taken apart

    The first three tests and the tests after the size limit, each written
    as in the source; [is_valid] is their sequence (lemma
    [is_valid_unfold]). *)

Definition version_check (d : pydict) : result bool :=
  if negb (Py.key_in "version" d) then Ok true
  else version ← Py.dict_getitem d "version";
       Ok (negb (Py.eq_int version 1 || Py.eq_int version 2)).

Definition locktime_check (d : pydict) : result bool :=
  if negb (Py.key_in "locktime" d) then Ok true
  else locktime ← Py.dict_getitem d "locktime";
       if Py.eq_int locktime 0 then Ok false
       else positive ← Py.gt_int locktime 0; Ok (negb positive).

Definition presence_check (d : pydict) : result bool :=
  vin ← Py.dict_getitem d "vin";
  if negb (Py.truthy vin) then Ok true
  else vout ← Py.dict_getitem d "vout"; Ok (negb (Py.truthy vout)).

Definition checks_after_size (tx : Transaction.t) (vin vout : json) : result bool :=
  inputs ← Py.iter vin;
  c5 ← Py.any (Transaction.in_utxo_set tx) inputs;
  if c5 : bool then Ok false else
  outputs ← Py.iter vout;
  c6 ← Py.any (λ o, value ← Py.getitem o "value"; Py.lt_int value 0) outputs;
  if c6 : bool then Ok false else
  total_in ← Py.sum Transaction.prevout_value inputs 0;
  total_out ← Py.sum (λ o, Py.getitem o "value") outputs 0;
  if total_in <? total_out then Ok false else
  is_coinbase ← Py.any Transaction.marked_coinbase inputs;
  c8 ← (if is_coinbase : bool then
          n ← Py.len vin;
          if negb (n =? 1) then Ok true
          else first ← Py.getitem0 vin; Py.contains_str "prevout" first
        else Ok false);
  if c8 : bool then Ok false else Ok true.

(** A record that passes the first three tests, with its [vin] and [vout]
    entries. *)
Definition passes_header (d : pydict) (vin vout : json) : Prop :=
  good_version d ∧ good_locktime d
  ∧ Py.dict_lookup "vin" d = Some vin ∧ Py.truthy vin = true
  ∧ Py.dict_lookup "vout" d = Some vout ∧ Py.truthy vout = true.

(** ** Notions for the statements on blocks and miners *)

(** A digest as [hexdigest] prints it: 64 lowercase hexadecimal digits. *)
Definition hex64 (s : string) : Prop :=
  String.length s = 64%nat ∧ forallb is_hex_digit (Py.chars s) = true.

(** The hash a new block has to point to. *)
Definition tip_hash (chain : Blockchain.t) : string :=
  match last (Blockchain.blocks chain) with
  | None => Miner.genesis_hash
  | Some tip => Block.hash tip
  end.

(** What [load_transactions] keeps of a record, and a record on which
    [is_valid] returns. *)
Definition accepted_by (utxo : gmap string Z) (data : pydict) : bool :=
  match Transaction.is_valid (Transaction.mk data utxo) with
  | Ok true => true
  | _ => false
  end.

Definition no_raise (utxo : gmap string Z) (data : pydict) : Prop :=
  ∃ ok, Transaction.is_valid (Transaction.mk data utxo) = Ok ok.

(** The miner with another pool, and the miner after a load that returns. *)
Definition with_pool (m : Miner.t) (pool : list Transaction.t) : Miner.t :=
  Miner.mk (Miner.mempool_path m) pool (Miner.blockchain m) (Miner.difficulty m)
    (Miner.utxo_set m).

Definition loaded (m : Miner.t) (records : list pydict) : Miner.t :=
  with_pool m
    (Miner.transactions m
     ++ map (λ data, Transaction.mk data (Miner.utxo_set m))
          (List.filter (accepted_by (Miner.utxo_set m)) records)).

(** ** Values used in the statements below *)

(** The value of a list of hexadecimal digits, most significant first. *)
Definition nibble (n : Z) : Prop := 0 ≤ n < 16.

Definition hex_value (acc : Z) (ns : list Z) : Z :=
  foldl (λ a d, 16 * a + d) acc ns.

(** Records and transactions. *)
Definition sample_input (id : string) (vout value : Z) : json :=
  JDict [("txid", JStr id); ("vout", JInt vout);
         ("prevout", JDict [("value", JInt value)])].

Definition sample_record (inputs : list json) (paid : Z) : pydict :=
  [("version", JInt 1); ("locktime", JInt 0); ("vin", JList inputs);
   ("vout", JList [JDict [("value", JInt paid)]])].

Definition sample_tx (id : string) : Transaction.t :=
  Transaction.mk (sample_record [sample_input id 0 5] 3) ∅.

(** Two inputs that spend the same output. *)
Definition twice_spent_record : pydict :=
  sample_record [sample_input "aa" 0 5; sample_input "aa" 0 5] 1.

(** A record validated against a UTXO set that holds another key. *)
Definition guarded_tx : Transaction.t :=
  Transaction.mk (sample_record [sample_input "aa" 0 5] 3) {["bb1" := 9]}.

Definition record_without_vin : pydict := [("version", JInt 1); ("locktime", JInt 0)].

(** A coinbase input, which has no [prevout], next to an ordinary input. *)
Definition coinbase_input : json :=
  JDict [("txid", JStr "aa"); ("vout", JInt 0); ("is_coinbase", JBool true)].

Definition coinbase_pair_record : pydict :=
  sample_record [coinbase_input; sample_input "bb" 1 5] 1.

Definition empty_vin_tx : Transaction.t := Transaction.mk [("vin", JList [])] ∅.

(** A transaction reduced to its txid. *)
Definition id_tx (id : string) : Transaction.t :=
  Transaction.mk [("vin", JList [JDict [("txid", JStr id)]])] ∅.

(** Blocks and ledgers. *)
Definition sealed_block (prev h : string) : Block.t := Block.mk [] prev 0 h.

Definition first_block : Block.t := sealed_block Miner.genesis_hash "aa".

Definition stray_block : Block.t := sealed_block "bb" "cc".

Definition empty_block : Block.t := Block.mk [] Miner.genesis_hash 0 "".

Definition unminable_block : Block.t :=
  Block.mk [empty_vin_tx] Miner.genesis_hash 0 "".

Definition id_block (ids : list string) : Block.t :=
  Block.mk (map id_tx ids) Miner.genesis_hash 0 "".

(** Difficulty strings: the all-F one, and one that the empty block on the
    genesis hash misses at nonce 0 and meets at nonce 1. *)
Definition all_f : string :=
  "ffffffffffffffffffffffffffffffffffffffffffffffffffffffffffffffff".

Definition easy_difficulty : string :=
  "2e00000000000000000000000000000000000000000000000000000000000000".

(** Miners. *)
Definition sample_miner_with (difficulty : string) (pool : list Transaction.t)
  : Miner.t :=
  Miner.mk "./mempool/" pool (Blockchain.mk []) difficulty ∅.

Definition sample_miner (pool : list Transaction.t) : Miner.t :=
  sample_miner_with (Miner.difficulty (Miner.init "./mempool/")) pool.

Definition pool15 : list Transaction.t :=
  map sample_tx ["a0"; "a1"; "a2"; "a3"; "a4"; "a5"; "a6"; "a7"; "a8"; "a9";
                 "b0"; "b1"; "b2"; "b3"; "b4"].

(** A record with a text of 100000 characters, and two more difficulty
    strings: 64 zeros, and 64 characters that are no digits. *)
Definition long_text : string :=
  string_of_list_ascii (repeat "a"%char (Z.to_nat 100000)).

Definition long_record : pydict :=
  [("version", JInt 1); ("locktime", JInt 0); ("vin", JList [JInt 7]);
   ("vout", JList [JDict [("value", JInt 3)]]); ("memo", JStr long_text)].

(** A mempool of one record whose block meets the difficulty the miner is
    built with at nonce 5, and the miner after loading it. *)
Definition mined_records : list pydict :=
  [sample_record [sample_input "ch" 0 5] 3].

Definition mined_miner : Miner.t := loaded (Miner.init "./mempool/") mined_records.

Definition mined_hash : string :=
  "0000225c91e86af20fac48fae2d823a7eb669b24221ae6eeceefb08f25250a86".

Definition zero_difficulty : string :=
  "0000000000000000000000000000000000000000000000000000000000000000".

Definition bad_difficulty : string :=
  "gggggggggggggggggggggggggggggggggggggggggggggggggggggggggggggggg".

(** * Properties *)

(** ** The error monad *)

Lemma bind_Ok {A B : Type} (m : result A) (f : A → result B) (b : B) :
  m ≫= f = Ok b → ∃ a, m = Ok a ∧ f a = Ok b.
Proof. destruct m as [a|e]; simpl; [eauto | discriminate]. Qed.

(** ** Transaction.txid *)

(** C10. The txid of a record is the [txid] entry of the first element of
    its [vin] list: with a non-empty list the accessor returns what
    subscripting the first input with the key gives, with an empty list it
    raises (IndexError), and it returns a value only when [vin] is a
    non-empty list. *)
Theorem txid_is_first_input_txid (tx : Transaction.t) :
  let vin := Py.dict_lookup "vin" (Transaction.json_data tx) in
  (∀ first rest, vin = Some (JList (first :: rest)) →
     Transaction.txid tx = Py.getitem first "txid")
  ∧ (∀ fields rest id, vin = Some (JList (JDict fields :: rest)) →
       Py.dict_lookup "txid" fields = Some id → Transaction.txid tx = Ok id)
  ∧ (vin = Some (JList []) → Transaction.txid tx = Raise IndexError)
  ∧ (∀ id, Transaction.txid tx = Ok id →
       ∃ first rest, vin = Some (JList (first :: rest))).
Proof.
  unfold Transaction.txid, Py.dict_getitem. simpl.
  repeat split.
  - intros first rest ->. reflexivity.
  - intros fields rest id -> Hid. simpl. unfold Py.dict_getitem. by rewrite Hid.
  - intros ->. reflexivity.
  - intros id H.
    destruct (Py.dict_lookup "vin" (Transaction.json_data tx)) as [v|];
      [|discriminate].
    destruct v as [| | |s|l|d]; simpl in H; try discriminate.
    + destruct s; discriminate.
    + destruct l as [|first rest]; [discriminate|]. eauto.
Qed.

Lemma txid_is_first_input_txid_witness :
  Transaction.txid
    (Transaction.mk (sample_record [sample_input "aa" 0 5; sample_input "bb" 1 7] 3) ∅)
  = Ok (JStr "aa")
  ∧ Transaction.txid (Transaction.mk (sample_record [] 3) ∅) = Raise IndexError.
Proof.
  split.
  - apply (proj1 (proj2 (txid_is_first_input_txid
      (Transaction.mk (sample_record [sample_input "aa" 0 5; sample_input "bb" 1 7] 3) ∅)))
      [("txid", JStr "aa"); ("vout", JInt 0); ("prevout", JDict [("value", JInt 5)])]
      [sample_input "bb" 1 7] (JStr "aa")); reflexivity.
  - apply (proj1 (proj2 (proj2 (txid_is_first_input_txid
      (Transaction.mk (sample_record [] 3) ∅))))); reflexivity.
Defined.

(** ** Miner.select_transactions_for_block *)

(** C7. From a pool of 15 or more transactions the selection is exactly the
    first 10 of the pool, in pool order. *)
Theorem select_takes_first_ten (m : Miner.t) :
  (15 ≤ length (Miner.transactions m))%nat →
  length (Miner.select_transactions_for_block m) = 10%nat
  ∧ (∀ i, (i < 10)%nat →
       Miner.select_transactions_for_block m !! i = Miner.transactions m !! i)
  ∧ ∃ rest, Miner.transactions m = Miner.select_transactions_for_block m ++ rest.
Proof.
  intros Hlen. unfold Miner.select_transactions_for_block. repeat split.
  - rewrite length_take. lia.
  - intros i Hi. by apply lookup_take_lt.
  - exists (drop 10 (Miner.transactions m)). by rewrite take_drop.
Qed.

(** C9. From a pool of fewer than 10 transactions (the empty pool too) the
    selection is the whole pool, unchanged. *)
Theorem select_keeps_small_pool (m : Miner.t) :
  (length (Miner.transactions m) < 10)%nat →
  Miner.select_transactions_for_block m = Miner.transactions m.
Proof.
  intros Hlen. unfold Miner.select_transactions_for_block.
  apply take_ge. lia.
Qed.

Lemma select_takes_first_ten_witness :
  Miner.select_transactions_for_block (sample_miner pool15) !! 9%nat
  = Some (sample_tx "a9")
  ∧ length (Miner.select_transactions_for_block (sample_miner pool15)) = 10%nat.
Proof.
  destruct (select_takes_first_ten (sample_miner pool15)) as (Hlen & Hnth & _).
  - simpl. lia.
  - split; [|exact Hlen]. rewrite Hnth; [reflexivity | lia].
Defined.

Lemma select_keeps_small_pool_witness :
  Miner.select_transactions_for_block (sample_miner (take 3 pool15))
  = map sample_tx ["a0"; "a1"; "a2"]
  ∧ Miner.select_transactions_for_block (sample_miner []) = [].
Proof.
  split.
  - rewrite (select_keeps_small_pool (sample_miner (take 3 pool15)));
      [reflexivity | simpl; lia].
  - rewrite (select_keeps_small_pool (sample_miner [])); [reflexivity | simpl; lia].
Defined.

(** ** Blockchain.add_block *)

(** C2, as stated, fails: a ledger whose tip has hash [aa] takes a block
    whose [previous_hash] is [bb]; the call returns and the block is in. *)
Lemma add_block_takes_unlinked_block :
  last (Blockchain.blocks (Blockchain.mk [first_block])) = Some first_block
  ∧ Block.previous_hash stray_block ≠ Block.hash first_block
  ∧ Blockchain.add_block (Blockchain.mk [first_block]) stray_block
    = Ok (Blockchain.mk [first_block; stray_block]).
Proof. repeat split. discriminate. Qed.

(** C2, amended. Appending never fails and never looks at [previous_hash]:
    for every ledger and every block the call returns a ledger whose last
    block is the given one and whose earlier blocks are the old ledger. *)
Theorem add_block_always_appends (chain : Blockchain.t) (block : Block.t) :
  ∃ chain', Blockchain.add_block chain block = Ok chain'
    ∧ last (Blockchain.blocks chain') = Some block
    ∧ length (Blockchain.blocks chain') = S (length (Blockchain.blocks chain))
    ∧ take (length (Blockchain.blocks chain)) (Blockchain.blocks chain')
      = Blockchain.blocks chain.
Proof.
  eexists. split; [reflexivity|]. simpl. repeat split.
  - apply last_snoc.
  - rewrite length_app. simpl. lia.
  - by rewrite take_app_length.
Qed.

(** ** Transaction.is_valid *)

Lemma any_Ok_false {A : Type} (cond : A → result bool) (l : list A) :
  Py.any cond l = Ok false → Forall (λ x, cond x = Ok false) l.
Proof.
  induction l as [|x l IH]; simpl; intros H; [constructor|].
  apply bind_Ok in H as (b & Hb & H).
  destruct b; [discriminate|]. constructor; auto.
Qed.

(** What an accepted record went through, check by check. *)
Lemma is_valid_accepted (tx : Transaction.t) :
  Transaction.is_valid tx = Ok true →
  ∃ vin inputs vout outputs total_in total_out coinbase,
    Py.dict_lookup "vin" (Transaction.json_data tx) = Some vin
    ∧ Py.truthy vin = true
    ∧ Py.iter vin = Ok inputs
    ∧ Py.any (Transaction.in_utxo_set tx) inputs = Ok false
    ∧ Py.dict_lookup "vout" (Transaction.json_data tx) = Some vout
    ∧ Py.iter vout = Ok outputs
    ∧ Py.sum Transaction.prevout_value inputs 0 = Ok total_in
    ∧ Py.sum (λ o, Py.getitem o "value") outputs 0 = Ok total_out
    ∧ total_out ≤ total_in
    ∧ Py.any Transaction.marked_coinbase inputs = Ok coinbase
    ∧ (coinbase = true → Py.len vin = Ok 1).
Proof.
  unfold Transaction.is_valid. intros H.
  apply bind_Ok in H as ([] & _ & H); [discriminate|].
  apply bind_Ok in H as ([] & _ & H); [discriminate|].
  apply bind_Ok in H as ([] & Hc3 & H); [discriminate|].
  destruct (100000 <? _); [discriminate|].
  apply bind_Ok in H as (vin & Hvin & H).
  apply bind_Ok in H as (inputs & Hinputs & H).
  apply bind_Ok in H as ([] & Hc5 & H); [discriminate|].
  apply bind_Ok in H as (vout & Hvout & H).
  apply bind_Ok in H as (outputs & Houtputs & H).
  apply bind_Ok in H as ([] & _ & H); [discriminate|].
  apply bind_Ok in H as (total_in & Hin & H).
  apply bind_Ok in H as (total_out & Hout & H).
  destruct (total_in <? total_out) eqn:Hfee; [discriminate|].
  apply bind_Ok in H as (coinbase & Hcb & H).
  apply bind_Ok in H as ([] & Hc8 & H); [discriminate|].
  unfold Py.dict_getitem in *.
  destruct (Py.dict_lookup "vin" _) as [vin'|] eqn:Evin; [|discriminate].
  destruct (Py.dict_lookup "vout" _) as [vout'|] eqn:Evout; [|discriminate].
  simplify_eq/=.
  exists vin, inputs, vout, outputs, total_in, total_out, coinbase.
  repeat split; auto.
  - destruct (Py.truthy vin); [done|discriminate].
  - lia.
  - intros ->. apply bind_Ok in Hc8 as (n & Hn & Hc8). rewrite Hn. f_equal.
    destruct (n =? 1) eqn:E; [lia|discriminate].
Qed.

Lemma accepted_vin_is_list (tx : Transaction.t) (vin : json) (inputs : list json) :
  Py.truthy vin = true → Py.iter vin = Ok inputs →
  Py.any (Transaction.in_utxo_set tx) inputs = Ok false →
  vin = JList inputs.
Proof.
  intros Htrue Hiter Hany.
  destruct vin as [| | |s|l|d]; simpl in Hiter; try discriminate.
  - destruct s; [discriminate|]. by simplify_eq/=.
  - by simplify_eq.
  - destruct d; [discriminate|]. by simplify_eq/=.
Qed.

(** C6, as stated, fails: a record whose two inputs both reference output 0
    of transaction [aa] is accepted against the empty UTXO set. *)
Lemma is_valid_accepts_repeated_input :
  Transaction.is_valid (Transaction.mk twice_spent_record ∅) = Ok true
  ∧ Py.dict_lookup "vin" twice_spent_record
    = Some (JList [sample_input "aa" 0 5; sample_input "aa" 0 5])
  ∧ Py.getitem (sample_input "aa" 0 5) "txid" = Ok (JStr "aa")
  ∧ Py.getitem (sample_input "aa" 0 5) "vout" = Ok (JInt 0).
Proof. repeat split; vm_compute; reflexivity. Qed.

(** C6, amended. The inputs of an accepted record are checked against the
    UTXO set only: the key [txid + str(vout)] of each input is computed
    without error and is not a key of the UTXO set the record was validated
    against. *)
Theorem accepted_inputs_not_in_utxo_set (tx : Transaction.t) :
  Transaction.is_valid tx = Ok true →
  ∃ inputs, Py.dict_lookup "vin" (Transaction.json_data tx) = Some (JList inputs)
    ∧ ∀ vin, vin ∈ inputs →
        ∃ key, Transaction.utxo_key vin = Ok key
          ∧ Transaction.utxo_set tx !! key = None.
Proof.
  intros H.
  apply is_valid_accepted in H
    as (vin & inputs & _ & _ & _ & _ & _ & Hvin & Htrue & Hiter & Hany & _).
  exists inputs. split.
  - by rewrite (accepted_vin_is_list tx vin inputs Htrue Hiter Hany) in Hvin.
  - intros v Hv. apply any_Ok_false in Hany.
    rewrite Forall_forall in Hany. specialize (Hany v Hv).
    unfold Transaction.in_utxo_set in Hany.
    apply bind_Ok in Hany as (key & Hkey & Hmem).
    exists key. split; [done|].
    injection Hmem as Hmem. apply bool_decide_eq_false in Hmem.
    by apply eq_None_not_Some.
Qed.

Lemma accepted_inputs_not_in_utxo_set_witness :
  Transaction.is_valid guarded_tx = Ok true
  ∧ ∃ inputs,
      Py.dict_lookup "vin" (Transaction.json_data guarded_tx) = Some (JList inputs)
      ∧ ∀ vin, vin ∈ inputs →
          ∃ key, Transaction.utxo_key vin = Ok key
            ∧ Transaction.utxo_set guarded_tx !! key = None.
Proof.
  assert (Transaction.is_valid guarded_tx = Ok true) as H
    by (vm_compute; reflexivity).
  split; [exact H|]. exact (accepted_inputs_not_in_utxo_set guarded_tx H).
Defined.

(** C3: the code departs from the claim. A record with a good version and
    locktime but no [vin] entry makes [is_valid] raise KeyError, whatever
    the UTXO set. *)
Theorem is_valid_raises_without_vin (utxo : gmap string Z) :
  Transaction.is_valid (Transaction.mk record_without_vin utxo) = Raise KeyError.
Proof. reflexivity. Qed.

(** C5: the code departs from the claim. A record with a coinbase input
    (which carries no [prevout]) and a second input makes [is_valid] raise
    KeyError in the sum of the input values, before the coinbase rule. *)
Theorem is_valid_raises_on_coinbase_pair :
  Transaction.is_valid (Transaction.mk coinbase_pair_record ∅) = Raise KeyError.
Proof. vm_compute. reflexivity. Qed.

(** What does hold for C5: such a record is never accepted. *)
Lemma coinbase_with_other_input_not_accepted (tx : Transaction.t) (inputs : list json) :
  Py.dict_lookup "vin" (Transaction.json_data tx) = Some (JList inputs) →
  Exists (λ vin, Transaction.marked_coinbase vin = Ok true) inputs →
  (2 ≤ length inputs)%nat →
  Transaction.is_valid tx ≠ Ok true.
Proof.
  intros Hvin Hmarked Hlen H.
  apply is_valid_accepted in H
    as (vin & inputs' & _ & _ & _ & _ & [] & Hvin' & _ & Hiter & _ & _ & _ & _ & _ & _
        & Hany & Hone).
  - rewrite Hvin in Hvin'. simplify_eq/=.
    specialize (Hone eq_refl). simplify_eq/=. lia.
  - rewrite Hvin in Hvin'. simplify_eq/=.
    apply any_Ok_false in Hany. rewrite Forall_forall in Hany.
    apply Exists_exists in Hmarked as (v & Hv & Hm).
    rewrite (Hany v Hv) in Hm. discriminate.
Qed.

(** ** Hexadecimal digests read back as integers *)

Lemma land_15_nibble (x : Z) : nibble (Z.land x 15).
Proof.
  unfold nibble. change 15 with (Z.ones 4).
  rewrite Z.land_ones by lia. apply Z.mod_pos_bound. lia.
Qed.

Lemma nibbles_spec (w : Z) :
  Forall nibble (SHA256.nibbles w) ∧ length (SHA256.nibbles w) = 8%nat.
Proof.
  split; [|reflexivity].
  unfold SHA256.nibbles. cbn [map]. repeat constructor; apply land_15_nibble.
Qed.

Lemma digest_words_length (msg : list Z) : length (SHA256.digest_words msg) = 8%nat.
Proof.
  unfold SHA256.digest_words.
  destruct (SHA256.process _ _ _) as [[[[[[[a b] c] d] e] f] g] h]. reflexivity.
Qed.

Lemma hex_nibbles_spec (msg : list Z) :
  Forall nibble (SHA256.hex_nibbles msg) ∧ length (SHA256.hex_nibbles msg) = 64%nat.
Proof.
  unfold SHA256.hex_nibbles.
  pose proof (digest_words_length msg) as Hlen.
  assert (∀ ws, Forall nibble (flat_map SHA256.nibbles ws)
                ∧ length (flat_map SHA256.nibbles ws) = (8 * length ws)%nat) as H.
  { induction ws as [|w ws [IH1 IH2]]; [split; [constructor|reflexivity]|].
    cbn [flat_map length]. destruct (nibbles_spec w) as [H1 H2]. split.
    - apply Forall_app. split; [exact H1 | exact IH1].
    - rewrite length_app, IH2, H2. lia. }
  destruct (H (SHA256.digest_words msg)) as [H1 H2]. split; [exact H1|].
  rewrite H2, Hlen. reflexivity.
Qed.

Lemma hex_digit_props (n : Z) :
  nibble n →
  Py.digit_value (Py.hex_digit n) = Some n
  ∧ Py.is_space (Py.hex_digit n) = false
  ∧ Ascii.eqb (Py.hex_digit n) "+" = false
  ∧ Ascii.eqb (Py.hex_digit n) "-" = false
  ∧ Ascii.eqb (Py.hex_digit n) "x" = false
  ∧ Ascii.eqb (Py.hex_digit n) "X" = false.
Proof.
  unfold nibble. intros Hn.
  assert (n = 0 ∨ n = 1 ∨ n = 2 ∨ n = 3 ∨ n = 4 ∨ n = 5 ∨ n = 6 ∨ n = 7 ∨ n = 8
          ∨ n = 9 ∨ n = 10 ∨ n = 11 ∨ n = 12 ∨ n = 13 ∨ n = 14 ∨ n = 15) as Hcases
    by lia.
  repeat (destruct Hcases as [->|Hcases]; [repeat split|]).
  subst. repeat split.
Qed.

Lemma digits_hex (ns : list Z) (acc : Z) :
  Forall nibble ns →
  Py.digits acc false (map Py.hex_digit ns) = Some (hex_value acc ns, []).
Proof.
  intros H. revert acc. induction H as [|n ns Hn _ IH]; intros acc; [reflexivity|].
  cbn [map Py.digits].
  destruct (hex_digit_props n Hn) as (-> & _). apply IH.
Qed.

Lemma hex_value_bounds (ns : list Z) (acc : Z) :
  Forall nibble ns → 0 ≤ acc →
  acc * 16 ^ Z.of_nat (length ns) ≤ hex_value acc ns
  < (acc + 1) * 16 ^ Z.of_nat (length ns).
Proof.
  intros H. revert acc. induction H as [|n ns Hn _ IH]; intros acc Hacc.
  - simpl. lia.
  - cbn [hex_value foldl length]. fold (hex_value (16 * acc + n) ns).
    unfold nibble in Hn.
    specialize (IH (16 * acc + n) ltac:(lia)).
    rewrite Nat2Z.inj_succ, Z.pow_succ_r by lia.
    assert (0 < 16 ^ Z.of_nat (length ns)) by (apply Z.pow_pos_nonneg; lia).
    nia.
Qed.

(** Reading back the hexadecimal digits of a non-empty list of nibbles. *)
Lemma int16_hex_digits (ns : list Z) :
  Forall nibble ns → ns ≠ [] →
  Py.int16 (string_of_list_ascii (map Py.hex_digit ns)) = Ok (hex_value 0 ns).
Proof.
  intros H Hne. unfold Py.int16, Py.chars.
  rewrite list_ascii_of_string_of_list_ascii.
  destruct H as [|n ns Hn Hns]; [done|].
  pose proof (digits_hex (n :: ns) 0 (Forall_cons_2 _ _ _ Hn Hns)) as Hdigits.
  destruct (hex_digit_props n Hn) as (Hd & Hsp & Hplus & Hminus & _).
  cbn [map] in *. cbn [Py.skip_spaces]. rewrite Hsp.
  cbn [Py.split_sign]. rewrite Hplus, Hminus.
  assert (Py.skip_prefix (Py.hex_digit n :: map Py.hex_digit ns)
          = Py.hex_digit n :: map Py.hex_digit ns) as ->.
  { destruct Hns as [|n2 ns2 Hn2 _]; [reflexivity|].
    destruct (hex_digit_props n2 Hn2) as (_ & _ & _ & _ & Hx & HX).
    cbn [map Py.skip_prefix]. rewrite Hx, HX.
    by rewrite andb_false_r. }
  rewrite Hd, Hdigits. cbn [Py.skip_spaces]. f_equal. lia.
Qed.

(** [int(h, 16)] never fails on a digest and yields a 256-bit number. *)
Lemma int16_hexdigest (msg : list Z) :
  ∃ v, Py.int16 (SHA256.hexdigest msg) = Ok v ∧ 0 ≤ v < 2 ^ 256.
Proof.
  destruct (hex_nibbles_spec msg) as [Hall Hlen].
  exists (hex_value 0 (SHA256.hex_nibbles msg)). split.
  - apply int16_hex_digits; [exact Hall|].
    intros E. rewrite E in Hlen. discriminate.
  - pose proof (hex_value_bounds _ 0 Hall ltac:(lia)) as Hb.
    rewrite Hlen in Hb. change (16 ^ Z.of_nat 64) with (2 ^ 256) in Hb. lia.
Qed.

Lemma hash_value_Ok (prev : string) (n : Z) (root : string) :
  ∃ v, Block.hash_value prev n root = Ok v ∧ 0 ≤ v < 2 ^ 256.
Proof. apply int16_hexdigest. Qed.

Example sha256_empty :
  sha256_hex "" = "e3b0c44298fc1c149afbf4c8996fb92427ae41e4649b934ca495991b7852b855".
Proof. vm_compute. reflexivity. Qed.

Example sha256_abc :
  sha256_hex "abc" = "ba7816bf8f01cfea414140de5dae2223b00361a396177a9cb410ff61f20015ad".
Proof. vm_compute. reflexivity. Qed.

Example sha256_two_blocks :
  sha256_hex "abcdbcdecdefdefgefghfghighijhijkijkljklmklmnlmnomnopnopq"
  = "248d6a61d20638b8e5c026930c3e6039a33ce45964ff2167f6ecedd419db06c1".
Proof. vm_compute. reflexivity. Qed.

(** ** Block.mine *)

Lemma calculate_hash_Ok (b : Block.t) (root : string) :
  Block.merkle_root b = Ok root →
  Block.calculate_hash b
  = Ok (sha256_hex (Block.preimage (Block.previous_hash b) (Block.nonce b) root)).
Proof. intros H. unfold Block.calculate_hash. by rewrite H. Qed.

Lemma below_target_value (b : Block.t) (root : string) (target n v : Z) :
  Block.hash_value (Block.previous_hash b) n root = Ok v →
  Block.below_target b root target n ↔ v < target.
Proof.
  intros Hv. unfold Block.below_target. split.
  - intros (w & Hw & Hlt). congruence.
  - eauto.
Qed.

(** The loop leaves only at the first nonce, counted from the initial one,
    whose digest is below the target; the other fields are untouched. *)
Lemma mine_loop_sound (fuel : nat) :
  ∀ (target : Z) (b b' : Block.t) (root : string),
    Block.merkle_root b = Ok root →
    Block.mine_loop fuel target b = Some (Ok b') →
    Block.transactions b' = Block.transactions b
    ∧ Block.previous_hash b' = Block.previous_hash b
    ∧ Block.nonce b ≤ Block.nonce b'
    ∧ Block.hash b'
      = sha256_hex (Block.preimage (Block.previous_hash b) (Block.nonce b') root)
    ∧ Block.below_target b root target (Block.nonce b')
    ∧ ∀ n, Block.nonce b ≤ n < Block.nonce b' → ¬ Block.below_target b root target n.
Proof.
  induction fuel as [|fuel IH]; intros target b b' root Hroot H; [discriminate|].
  cbn [Block.mine_loop] in H. rewrite (calculate_hash_Ok b root Hroot) in H.
  set (h := sha256_hex _) in H.
  destruct (Py.int16 h) as [v|e] eqn:Hv; [|discriminate].
  destruct (v <? target) eqn:Hlt.
  - simplify_eq. cbn. repeat split; try done; try lia.
    apply (below_target_value b root target (Block.nonce b) v Hv). lia.
  - apply (IH _ _ _ root) in H as (Htx & Hprev & Hle & Hhash & Hbelow & Hmin);
      [|exact Hroot].
    cbn in Htx, Hprev, Hle, Hhash, Hbelow, Hmin.
    repeat split; try done; try lia.
    intros n Hn Hn'.
    destruct (decide (n = Block.nonce b)) as [->|Hne].
    + apply (below_target_value b root target (Block.nonce b) v Hv) in Hn'. lia.
    + apply (Hmin n); [lia | exact Hn'].
Qed.

(** With a budget above the distance to it, the loop reaches the first
    nonce whose digest is below the target. *)
Lemma mine_loop_complete (k : nat) :
  ∀ (target : Z) (b : Block.t) (root : string) (fuel : nat),
    Block.merkle_root b = Ok root →
    (∀ n, Block.nonce b ≤ n < Block.nonce b + Z.of_nat k →
          ¬ Block.below_target b root target n) →
    Block.below_target b root target (Block.nonce b + Z.of_nat k) →
    (k < fuel)%nat →
    Block.mine_loop fuel target b
    = Some (Ok (Block.mk (Block.transactions b) (Block.previous_hash b)
                  (Block.nonce b + Z.of_nat k)
                  (sha256_hex (Block.preimage (Block.previous_hash b)
                                 (Block.nonce b + Z.of_nat k) root)))).
Proof.
  induction k as [|k IH]; intros target b root fuel Hroot Hmin Hbelow Hfuel;
    (destruct fuel as [|fuel]; [lia|]);
    cbn [Block.mine_loop]; rewrite (calculate_hash_Ok b root Hroot);
    destruct (hash_value_Ok (Block.previous_hash b) (Block.nonce b) root)
      as (v & Hv & _);
    unfold Block.hash_value in Hv; rewrite Hv.
  - rewrite Z.add_0_r in *.
    apply (below_target_value b root target _ v Hv) in Hbelow.
    apply Z.ltb_lt in Hbelow. rewrite Hbelow. reflexivity.
  - assert ((v <? target) = false) as ->.
    { apply Z.ltb_ge. destruct (Z.lt_ge_cases v target) as [Hlt|]; [|done].
      exfalso. apply (Hmin (Block.nonce b)); [lia|].
      by apply (below_target_value b root target _ v Hv). }
    set (b2 := Block.set_nonce _ _).
    replace (Block.nonce b + Z.of_nat (S k)) with (Block.nonce b2 + Z.of_nat k)
      by (cbn; lia).
    apply (IH target b2 root fuel); [exact Hroot| | |lia].
    + intros n Hn. apply (Hmin n). cbn in Hn. lia.
    + replace (Block.nonce b2 + Z.of_nat k) with (Block.nonce b + Z.of_nat (S k))
        by (cbn; lia).
      exact Hbelow.
Qed.

Lemma mine_Ok (fuel : nat) (b b' : Block.t) (difficulty : string) :
  Block.mine fuel b difficulty = Some (Ok b') →
  ∃ target root,
    String.length difficulty = 64%nat
    ∧ Py.int16 difficulty = Ok target
    ∧ Block.merkle_root b = Ok root
    ∧ Block.mine_loop fuel target b = Some (Ok b').
Proof.
  unfold Block.mine. intros H.
  destruct (String.length difficulty =? 64)%nat eqn:Hlen; [|discriminate].
  apply Nat.eqb_eq in Hlen. cbn [negb] in H.
  destruct (Py.int16 difficulty) as [target|e]; [|discriminate].
  destruct (Block.merkle_root b) as [root|e] eqn:Hroot.
  - exists target, root. done.
  - destruct fuel; [discriminate|]. cbn [Block.mine_loop] in H.
    unfold Block.calculate_hash in H. rewrite Hroot in H. discriminate.
Qed.

Lemma mine_unfold (fuel : nat) (b : Block.t) (difficulty : string) (target : Z) :
  String.length difficulty = 64%nat → Py.int16 difficulty = Ok target →
  Block.mine fuel b difficulty = Block.mine_loop fuel target b.
Proof.
  intros Hlen Ht. unfold Block.mine. rewrite Hlen, Ht. reflexivity.
Qed.

(** The hash of a block that [mine] returns, read as an integer, is
    strictly below the target.  With a difficulty of 64 characters whose
    value is [2^256 - 1], the first iteration on a block with nonce 0 and a
    Merkle root leaves the loop exactly when the digest of nonce 0 is not
    [2^256 - 1], the one value of a digest that is not below that target;
    whether SHA-256 takes that value on such a message is not settled
    here. *)
Theorem mine_hash_below_target (b : Block.t) (difficulty : string) :
  (∀ fuel b', Block.mine fuel b difficulty = Some (Ok b') →
     ∃ h target, Py.int16 (Block.hash b') = Ok h
       ∧ Py.int16 difficulty = Ok target ∧ h < target)
  ∧ (∀ root fuel,
       String.length difficulty = 64%nat →
       Py.int16 difficulty = Ok (2 ^ 256 - 1) →
       Block.nonce b = 0 →
       Block.merkle_root b = Ok root →
       Block.hash_value (Block.previous_hash b) 0 root ≠ Ok (2 ^ 256 - 1) →
       Block.mine (S fuel) b difficulty
       = Some (Ok (Block.set_hash
                     (sha256_hex (Block.preimage (Block.previous_hash b) 0 root)) b))).
Proof.
  split.
  - intros fuel b' H.
    apply mine_Ok in H as (target & root & _ & Ht & Hroot & H).
    apply (mine_loop_sound _ _ _ _ root Hroot) in H
      as (_ & _ & _ & Hhash & (v & Hv & Hlt) & _).
    exists v, target. rewrite Hhash. done.
  - intros root fuel Hlen Ht Hnonce Hroot Hne.
    rewrite (mine_unfold _ _ _ _ Hlen Ht).
    destruct (hash_value_Ok (Block.previous_hash b) 0 root) as (v & Hv & Hrange).
    rewrite (mine_loop_complete 0 (2 ^ 256 - 1) b root (S fuel) Hroot).
    + unfold Block.set_hash. rewrite Hnonce. reflexivity.
    + intros n Hn. lia.
    + rewrite Hnonce. exists v. split; [exact Hv|].
      assert (v ≠ 2 ^ 256 - 1) by congruence. lia.
    + lia.
Qed.

Lemma mine_hash_below_target_witness :
  (∃ h target,
     Py.int16 "2dc8d0d2cccb02ea5cca42cbf6abf9a9ca8ff187aa3adad9f7832a1e475a7b0a" = Ok h
     ∧ Py.int16 easy_difficulty = Ok target ∧ h < target)
  ∧ Block.mine 1 empty_block all_f
    = Some (Ok (Block.mk [] Miner.genesis_hash 0
                  "2e9b4f922197610d8e9e866c39fa4a29a87e51d1a2cfdeccf69cb30c0137b0fb")).
Proof.
  split.
  - apply (proj1 (mine_hash_below_target empty_block easy_difficulty) 2%nat
             (Block.mk [] Miner.genesis_hash 1
                "2dc8d0d2cccb02ea5cca42cbf6abf9a9ca8ff187aa3adad9f7832a1e475a7b0a")).
    vm_compute. reflexivity.
  - rewrite (proj2 (mine_hash_below_target empty_block all_f)
               "e3b0c44298fc1c149afbf4c8996fb92427ae41e4649b934ca495991b7852b855" 0%nat).
    + vm_compute. reflexivity.
    + reflexivity.
    + vm_compute. reflexivity.
    + reflexivity.
    + vm_compute. reflexivity.
    + vm_compute. discriminate.
Defined.

(** C8. When [mine] returns, the nonce of the returned block is the least
    integer from the initial nonce on whose digest (of the previous hash,
    the decimal nonce and the Merkle root), read as an integer, is below
    the target; and whenever such a least integer exists, [mine] returns
    with it, given a budget above its distance from the initial nonce. *)
Theorem mine_stops_at_least_nonce (b : Block.t) (difficulty : string) :
  (∀ fuel b', Block.mine fuel b difficulty = Some (Ok b') →
     ∃ root target,
       Block.merkle_root b = Ok root
       ∧ Py.int16 difficulty = Ok target
       ∧ Block.nonce b ≤ Block.nonce b'
       ∧ Block.below_target b root target (Block.nonce b')
       ∧ ∀ n, Block.nonce b ≤ n < Block.nonce b' →
              ¬ Block.below_target b root target n)
  ∧ (∀ root target n,
       String.length difficulty = 64%nat →
       Py.int16 difficulty = Ok target →
       Block.merkle_root b = Ok root →
       Block.nonce b ≤ n →
       Block.below_target b root target n →
       (∀ k, Block.nonce b ≤ k < n → ¬ Block.below_target b root target k) →
       ∀ fuel, (Z.to_nat (n - Block.nonce b) < fuel)%nat →
         ∃ b', Block.mine fuel b difficulty = Some (Ok b') ∧ Block.nonce b' = n).
Proof.
  split.
  - intros fuel b' H.
    apply mine_Ok in H as (target & root & _ & Ht & Hroot & H).
    apply (mine_loop_sound _ _ _ _ root Hroot) in H
      as (_ & _ & Hle & _ & Hbelow & Hmin).
    exists root, target. done.
  - intros root target n Hlen Ht Hroot Hle Hbelow Hmin fuel Hfuel.
    rewrite (mine_unfold _ _ _ _ Hlen Ht).
    assert (n = Block.nonce b + Z.of_nat (Z.to_nat (n - Block.nonce b))) as Hn by lia.
    eexists. split.
    + apply (mine_loop_complete (Z.to_nat (n - Block.nonce b)) target b root fuel Hroot).
      * intros k Hk. apply Hmin. lia.
      * by rewrite <- Hn.
      * exact Hfuel.
    + cbn. lia.
Qed.

Lemma mine_stops_at_least_nonce_witness :
  (∃ root target,
     Block.merkle_root empty_block = Ok root
     ∧ Py.int16 easy_difficulty = Ok target
     ∧ Block.nonce empty_block ≤ 1
     ∧ Block.below_target empty_block root target 1
     ∧ ∀ n, Block.nonce empty_block ≤ n < 1 →
            ¬ Block.below_target empty_block root target n)
  ∧ ∃ b', Block.mine 1 empty_block all_f = Some (Ok b') ∧ Block.nonce b' = 0.
Proof.
  split.
  - apply (proj1 (mine_stops_at_least_nonce empty_block easy_difficulty) 2%nat
             (Block.mk [] Miner.genesis_hash 1
                "2dc8d0d2cccb02ea5cca42cbf6abf9a9ca8ff187aa3adad9f7832a1e475a7b0a")).
    vm_compute. reflexivity.
  - apply (proj2 (mine_stops_at_least_nonce empty_block all_f)
             "e3b0c44298fc1c149afbf4c8996fb92427ae41e4649b934ca495991b7852b855"
             (2 ^ 256 - 1) 0).
    + reflexivity.
    + vm_compute. reflexivity.
    + vm_compute. reflexivity.
    + simpl. lia.
    + eexists. split; [vm_compute; reflexivity | reflexivity].
    + intros k Hk. simpl in Hk. lia.
    + simpl. lia.
Defined.

(** ** Block.merkle_root *)

Lemma mapM_result_Ok {A B : Type} (f : A → result B) (l : list A) (k : list B) :
  mapM f l = Ok k ↔ Forall2 (λ x y, f x = Ok y) l k.
Proof.
  split.
  - revert k. induction l as [|x l IH]; intros k H; simpl in H.
    + injection H as <-. constructor.
    + apply bind_Ok in H as (y & Hy & H). apply bind_Ok in H as (k' & Hk' & H).
      injection H as <-. constructor; auto.
  - induction 1 as [|x y l k Hxy _ IH]; simpl; [reflexivity|].
    rewrite Hxy. simpl. rewrite IH. reflexivity.
Qed.

Lemma as_str_Some (v : json) (s : string) : Block.as_str v = Some s ↔ v = JStr s.
Proof. destruct v; simpl; split; intros; simplify_eq; done. Qed.

(** The Merkle root is defined exactly when every transaction has a str
    txid; it is then the digest of the sorted ids, joined. *)
Lemma merkle_root_Ok (b : Block.t) (r : string) :
  Block.merkle_root b = Ok r
  ↔ ∃ ids, Forall2 (λ tx id, Transaction.txid tx = Ok (JStr id))
             (Block.transactions b) ids
      ∧ r = sha256_hex (Py.concat (Block.sorted ids)).
Proof.
  unfold Block.merkle_root. split.
  - intros H. apply bind_Ok in H as (txids & Htx & H).
    destruct (mapM Block.as_str txids) as [ids|] eqn:Hids; [|discriminate].
    injection H as <-. exists ids. split; [|reflexivity].
    apply mapM_result_Ok in Htx. apply mapM_Some in Hids.
    revert ids Hids. induction Htx as [|tx v txs vs Hv _ IH]; intros ids Hids.
    + inversion Hids. constructor.
    + inversion Hids as [|? id ? ids' Hid Hrest]; subst.
      apply as_str_Some in Hid as ->. constructor; auto.
  - intros (ids & Hids & ->).
    assert (mapM Transaction.txid (Block.transactions b) = Ok (JStr <$> ids)) as ->.
    { apply mapM_result_Ok. induction Hids; constructor; auto. }
    simpl.
    assert (mapM Block.as_str (JStr <$> ids) = Some ids) as ->; [|reflexivity].
    apply mapM_Some. clear Hids. induction ids; constructor; auto.
Qed.

Lemma Forall2_permute {A B : Type} (P : A → B → Prop) (l l' : list A) (k : list B) :
  l ≡ₚ l' → Forall2 P l k → ∃ k', k ≡ₚ k' ∧ Forall2 P l' k'.
Proof.
  intros Hperm. revert k.
  induction Hperm as [|x l l' _ IH|x y l|l1 l2 l3 _ IH1 _ IH2]; intros k Hk.
  - inversion Hk. exists []. split; [done | constructor].
  - inversion Hk as [|? z ? k0 Hz Hk0]; subst.
    destruct (IH k0 Hk0) as (k' & Hp & Hf).
    exists (z :: k'). split; [by constructor | by constructor].
  - inversion Hk as [|? z1 ? k1 Hz1 Hk1]; subst.
    inversion Hk1 as [|? z2 ? k2 Hz2 Hk2]; subst.
    exists (z2 :: z1 :: k2). split; [apply perm_swap | by repeat constructor].
  - destruct (IH1 k Hk) as (k1 & Hp1 & Hf1).
    destruct (IH2 k1 Hf1) as (k2 & Hp2 & Hf2).
    exists k2. split; [by etrans | done].
Qed.

Lemma sorted_permutation (l l' : list string) :
  l ≡ₚ l' → Block.sorted l = Block.sorted l'.
Proof.
  intros Hperm. unfold Block.sorted.
  apply (Sorted_unique String.le); try apply Sorted_merge_sort; try apply _.
  by rewrite !merge_sort_Permutation.
Qed.

Lemma sorted_eq_permutation (l l' : list string) :
  Block.sorted l = Block.sorted l' → l ≡ₚ l'.
Proof.
  unfold Block.sorted. intros H.
  rewrite <- (merge_sort_Permutation String.le l), H.
  apply merge_sort_Permutation.
Qed.

Lemma merkle_root_permutation (b1 b2 : Block.t) (r : string) :
  Block.transactions b1 ≡ₚ Block.transactions b2 →
  Block.merkle_root b1 = Ok r → Block.merkle_root b2 = Ok r.
Proof.
  intros Hperm H. apply merkle_root_Ok in H as (ids & Hids & ->).
  destruct (Forall2_permute _ _ _ _ Hperm Hids) as (ids' & Hp & Hids').
  apply merkle_root_Ok. exists ids'. split; [exact Hids'|].
  by rewrite (sorted_permutation ids ids' Hp).
Qed.

(** *** Distinct id lists of one length give distinct hashed bytes *)

Lemma decode_first_encode_char (c : ascii) (r : list Z) :
  Py.decode_first (Py.encode_char c ++ r) = Some c.
Proof. destruct c as [[] [] [] [] [] [] [] []]; reflexivity. Qed.

Lemma encode_char_inj (c c' : ascii) (r r' : list Z) :
  Py.encode_char c ++ r = Py.encode_char c' ++ r' → c = c' ∧ r = r'.
Proof.
  intros H.
  assert (c = c') as <-.
  { pose proof (decode_first_encode_char c r) as H1.
    rewrite H, decode_first_encode_char in H1. congruence. }
  split; [reflexivity|]. by apply app_inv_head in H.
Qed.

Lemma encode_chars_inj (cs cs' : list ascii) :
  flat_map Py.encode_char cs = flat_map Py.encode_char cs' → cs = cs'.
Proof.
  revert cs'. induction cs as [|c cs IH]; intros [|c' cs'] H; cbn [flat_map] in H.
  - reflexivity.
  - exfalso. pose proof (decode_first_encode_char c' (flat_map Py.encode_char cs')) as D.
    rewrite <- H in D. discriminate.
  - exfalso. pose proof (decode_first_encode_char c (flat_map Py.encode_char cs)) as D.
    rewrite H in D. discriminate.
  - apply encode_char_inj in H as [-> H]. f_equal. by apply IH.
Qed.

Lemma encode_inj (s s' : string) : Py.encode s = Py.encode s' → s = s'.
Proof.
  unfold Py.encode, Py.chars. intros H%encode_chars_inj.
  rewrite <- (string_of_list_ascii_of_string s), H.
  apply string_of_list_ascii_of_string.
Qed.

Lemma append_inj_same_length (x y r r' : string) :
  String.length x = String.length y → x +:+ r = y +:+ r' → x = y ∧ r = r'.
Proof.
  revert y. induction x as [|c x IH]; intros [|c' y] Hlen H;
    simpl in Hlen; try discriminate.
  - done.
  - cbn in H. injection H as -> H. injection Hlen as Hlen.
    destruct (IH y Hlen H) as [-> ->]. done.
Qed.

Lemma concat_inj_same_length (n : nat) (l l' : list string) :
  Forall (λ s, String.length s = n) l → Forall (λ s, String.length s = n) l' →
  length l = length l' → Py.concat l = Py.concat l' → l = l'.
Proof.
  intros Hl. revert l'. induction Hl as [|x l Hx _ IH]; intros l' Hl' Hlen H.
  - destruct l'; [reflexivity | discriminate].
  - destruct Hl' as [|y l' Hy Hl']; [discriminate|].
    cbn [Py.concat] in H. injection Hlen as Hlen.
    apply append_inj_same_length in H as [-> H]; [|congruence].
    f_equal. by apply IH.
Qed.

Lemma permutation_replace_inv (x y : string) (before after : list string) :
  before ++ x :: after ≡ₚ before ++ y :: after → x = y.
Proof.
  intros H. rewrite <- !Permutation_middle in H.
  destruct (decide (x = y)) as [|Hne]; [done|]. exfalso.
  assert (length (filter (x =.) (x :: before ++ after))
          = length (filter (x =.) (y :: before ++ after))) as Hcount by by rewrite H.
  rewrite filter_cons_True, filter_cons_False in Hcount by done.
  simpl in Hcount. lia.
Qed.

(** C4, as stated, fails in its second half: replacing the txid [ab] by
    the different txid [ba], next to the unchanged txid [aba], leaves the
    Merkle root as it was (both sorted lists join to [ababa]). *)
Lemma merkle_root_blind_to_replaced_txid :
  mapM Transaction.txid (Block.transactions (id_block ["ab"; "aba"]))
  = Ok [JStr "ab"; JStr "aba"]
  ∧ mapM Transaction.txid (Block.transactions (id_block ["ba"; "aba"]))
    = Ok [JStr "ba"; JStr "aba"]
  ∧ "ab" ≠ "ba"
  ∧ Block.merkle_root (id_block ["ab"; "aba"])
    = Ok "f9b8d87e305fcf0125d889e2e40ea64b446b4c09d9459358c7d64a4a2fefcabe"
  ∧ Block.merkle_root (id_block ["ba"; "aba"])
    = Ok "f9b8d87e305fcf0125d889e2e40ea64b446b4c09d9459358c7d64a4a2fefcabe".
Proof.
  split; [reflexivity|]. split; [reflexivity|]. split; [discriminate|].
  split; vm_compute; reflexivity.
Qed.

(** C4, amended. The Merkle root is the same for every ordering of the
    transactions. When all txids are strs of one length, replacing a single
    txid by a different one of that length changes the bytes that are
    hashed, so the two roots are SHA-256 digests of different messages. *)
Theorem merkle_root_order_and_replacement :
  (∀ b1 b2 r, Block.transactions b1 ≡ₚ Block.transactions b2 →
     (Block.merkle_root b1 = Ok r ↔ Block.merkle_root b2 = Ok r))
  ∧ (∀ b1 b2 before after x y n,
       mapM Transaction.txid (Block.transactions b1)
       = Ok (JStr <$> before ++ x :: after) →
       mapM Transaction.txid (Block.transactions b2)
       = Ok (JStr <$> before ++ y :: after) →
       Forall (λ s, String.length s = n) (x :: y :: before ++ after) →
       x ≠ y →
       ∃ s1 s2, Block.merkle_root b1 = Ok (sha256_hex s1)
         ∧ Block.merkle_root b2 = Ok (sha256_hex s2)
         ∧ Py.encode s1 ≠ Py.encode s2).
Proof.
  split.
  - intros b1 b2 r Hperm. split; apply merkle_root_permutation; [done|by symmetry].
  - intros b1 b2 before after x y n H1 H2 Hlen Hne.
    assert (∀ b ids, mapM Transaction.txid (Block.transactions b) = Ok (JStr <$> ids) →
              Block.merkle_root b = Ok (sha256_hex (Py.concat (Block.sorted ids))))
      as Hroot.
    { intros b ids H. apply merkle_root_Ok. exists ids. split; [|reflexivity].
      apply mapM_result_Ok in H. apply Forall2_fmap_r in H. exact H. }
    eexists _, _. split; [apply Hroot, H1|]. split; [apply Hroot, H2|].
    intros Heq%encode_inj. apply Hne.
    apply (permutation_replace_inv x y before after).
    apply sorted_eq_permutation.
    inversion Hlen as [|? ? Hx Hlen']; subst. inversion Hlen' as [|? ? Hy Hrest]; subst.
    apply (concat_inj_same_length (String.length x)); [| | |exact Heq].
    + unfold Block.sorted. rewrite merge_sort_Permutation.
      rewrite <- Permutation_middle. by constructor.
    + unfold Block.sorted. rewrite merge_sort_Permutation.
      rewrite <- Permutation_middle. by constructor.
    + unfold Block.sorted. rewrite !merge_sort_Permutation, !length_app. reflexivity.
Qed.

Lemma merkle_root_order_and_replacement_witness :
  Block.merkle_root (id_block ["bb"; "aa"]) = Ok (sha256_hex "aabb")
  ∧ ∃ s1 s2,
      Block.merkle_root (id_block ["aa"; "bb"]) = Ok (sha256_hex s1)
      ∧ Block.merkle_root (id_block ["aa"; "cc"]) = Ok (sha256_hex s2)
      ∧ Py.encode s1 ≠ Py.encode s2.
Proof.
  split.
  - apply (proj1 merkle_root_order_and_replacement
             (id_block ["aa"; "bb"]) (id_block ["bb"; "aa"])).
    + simpl. apply perm_swap.
    + vm_compute. reflexivity.
  - apply (proj2 merkle_root_order_and_replacement
             (id_block ["aa"; "bb"]) (id_block ["aa"; "cc"]) ["aa"] [] "bb" "cc" 2%nat).
    + reflexivity.
    + reflexivity.
    + repeat constructor.
    + discriminate.
Defined.

(** ** Miner.mine_block *)

(** A block that [mine_block] returns points to the tip of the ledger it
    was mined on (to the genesis value on an empty ledger), holds the
    selected transactions, and is the new tip. *)
Lemma mine_block_links_to_tip (fuel : nat) (m m' : Miner.t) (block : Block.t) :
  Miner.mine_block fuel m = Some (Ok (m', block)) →
  Block.previous_hash block
  = match last (Blockchain.blocks (Miner.blockchain m)) with
    | None => Miner.genesis_hash
    | Some tip => Block.hash tip
    end
  ∧ Block.transactions block = Miner.select_transactions_for_block m
  ∧ Blockchain.blocks (Miner.blockchain m')
    = Blockchain.blocks (Miner.blockchain m) ++ [block].
Proof.
  unfold Miner.mine_block. intros H.
  destruct (Block.mine fuel _ _) as [[sealed|e]|] eqn:Hmine; try discriminate.
  simpl in H. simplify_eq.
  apply mine_Ok in Hmine as (target & root & _ & _ & Hroot & Hloop).
  apply (mine_loop_sound _ _ _ _ root Hroot) in Hloop as (Htx & Hprev & _).
  done.
Qed.

Example mine_block_on_empty_pool :
  Miner.mine_block 1 (sample_miner_with all_f [])
  = Some (Ok (Miner.mk "./mempool/" []
                (Blockchain.mk
                   [Block.mk [] Miner.genesis_hash 0
                      "2e9b4f922197610d8e9e866c39fa4a29a87e51d1a2cfdeccf69cb30c0137b0fb"])
                all_f ∅,
              Block.mk [] Miner.genesis_hash 0
                "2e9b4f922197610d8e9e866c39fa4a29a87e51d1a2cfdeccf69cb30c0137b0fb")).
Proof. vm_compute. reflexivity. Qed.

(** * Further properties *)

(** ** The checks of is_valid, one by one *)

Lemma key_in_lookup (k : string) (d : pydict) :
  Py.key_in k d = match Py.dict_lookup k d with Some _ => true | None => false end.
Proof. reflexivity. Qed.

Lemma eq_int_value (v : json) (n : Z) :
  Py.eq_int v n = true ↔ int_value v = Some n.
Proof.
  destruct v; simpl; split; intros H; try discriminate.
  - apply Z.eqb_eq in H. by subst.
  - simplify_eq. apply Z.eqb_refl.
  - apply Z.eqb_eq in H. by subst.
  - simplify_eq. apply Z.eqb_refl.
Qed.

Lemma version_test (v : json) :
  (Py.eq_int v 1 || Py.eq_int v 2) = true
  ↔ ∃ z, int_value v = Some z ∧ (z = 1 ∨ z = 2).
Proof.
  rewrite orb_true_iff, !eq_int_value. split.
  - intros [H|H]; eauto.
  - intros (z & Hz & [->| ->]); auto.
Qed.

Lemma version_check_good (d : pydict) :
  good_version d → version_check d = Ok false.
Proof.
  intros (v & z & Hv & Hz). unfold version_check, Py.dict_getitem.
  rewrite key_in_lookup, Hv. simpl.
  assert ((Py.eq_int v 1 || Py.eq_int v 2) = true) as ->; [|reflexivity].
  apply version_test. eauto.
Qed.

Lemma version_check_bad (d : pydict) :
  ¬ good_version d → version_check d = Ok true.
Proof.
  intros Hbad. unfold version_check, Py.dict_getitem. rewrite key_in_lookup.
  destruct (Py.dict_lookup "version" d) as [v|] eqn:Hv; simpl; [|reflexivity].
  destruct (Py.eq_int v 1 || Py.eq_int v 2) eqn:E; [|reflexivity].
  exfalso. apply Hbad. apply version_test in E as (z & Hz & Hz'). by exists v, z.
Qed.

Lemma locktime_check_good (d : pydict) :
  good_locktime d → locktime_check d = Ok false.
Proof.
  intros (v & z & Hv & Hz & Hpos).
  unfold locktime_check, Py.dict_getitem. rewrite key_in_lookup, Hv. simpl.
  destruct v as [|b|n| | |]; simpl in *; try discriminate.
  - destruct b; reflexivity.
  - injection Hz as ->. destruct (z =? 0) eqn:E; [reflexivity|]. simpl.
    assert ((0 <? z) = true) as ->; [|reflexivity].
    apply Z.ltb_lt. apply Z.eqb_neq in E. lia.
Qed.

Lemma locktime_check_Ok_false (d : pydict) :
  locktime_check d = Ok false → good_locktime d.
Proof.
  unfold locktime_check, Py.dict_getitem. rewrite key_in_lookup.
  destruct (Py.dict_lookup "locktime" d) as [v|] eqn:Hv; simpl; [|discriminate].
  intros H. exists v.
  destruct v as [|b|n| | |]; simpl in *; try discriminate.
  - exists (Z.b2z b). destruct b; simpl; auto with lia.
  - exists n. repeat split; try done.
    destruct (n =? 0) eqn:E; [apply Z.eqb_eq in E; lia|].
    simpl in H. destruct (0 <? n) eqn:E'; [|discriminate].
    apply Z.ltb_lt in E'. lia.
Qed.

Lemma is_valid_unfold (tx : Transaction.t) :
  Transaction.is_valid tx
  = (c1 ← version_check (Transaction.json_data tx);
     if c1 : bool then Ok false else
     c2 ← locktime_check (Transaction.json_data tx);
     if c2 : bool then Ok false else
     c3 ← presence_check (Transaction.json_data tx);
     if c3 : bool then Ok false else
     if 100000 <? serialized_size (Transaction.json_data tx) then Ok false else
     vin ← Py.dict_getitem (Transaction.json_data tx) "vin";
     vout ← Py.dict_getitem (Transaction.json_data tx) "vout";
     checks_after_size tx vin vout).
Proof.
  unfold Transaction.is_valid, version_check, locktime_check, presence_check,
    checks_after_size, serialized_size, Transaction.validate_witness_data.
  destruct (if negb (Py.key_in "version" _) then _ else _) as [[]|]; try reflexivity.
  simpl.
  destruct (if negb (Py.key_in "locktime" _) then _ else _) as [[]|]; try reflexivity.
  simpl.
  destruct (Py.dict_getitem _ "vin") as [vin|]; [|reflexivity]. simpl.
  destruct (Py.truthy vin); [|reflexivity]. simpl.
  destruct (Py.dict_getitem _ "vout") as [vout|]; [|reflexivity]. simpl.
  destruct (Py.truthy vout); [|reflexivity]. simpl.
  destruct (100000 <? _); [reflexivity|].
  destruct (Py.iter vin) as [inputs|]; [|reflexivity]. simpl.
  destruct (Py.any (Transaction.in_utxo_set tx) inputs) as [[]|];
    try reflexivity. simpl.
  destruct (Py.iter vout) as [outputs|]; [|reflexivity]. simpl.
  destruct (Py.any _ outputs) as [[]|]; try reflexivity. simpl.
  destruct (Py.sum _ inputs 0) as [total_in|]; [|reflexivity]. simpl.
  destruct (Py.sum _ outputs 0) as [total_out|]; [|reflexivity]. simpl.
  destruct (total_in <? total_out); [reflexivity|].
  destruct (Py.any Transaction.marked_coinbase inputs) as [is_coinbase|];
    [|reflexivity]. simpl.
  rewrite andb_false_r.
  destruct (if is_coinbase then _ else _) as [[]|]; reflexivity.
Qed.

Lemma is_valid_after_header (tx : Transaction.t) (vin vout : json) :
  passes_header (Transaction.json_data tx) vin vout →
  Transaction.is_valid tx
  = if 100000 <? serialized_size (Transaction.json_data tx) then Ok false
    else checks_after_size tx vin vout.
Proof.
  intros (Hv & Hl & Hvin & Htvin & Hvout & Htvout).
  rewrite is_valid_unfold, (version_check_good _ Hv). simpl.
  rewrite (locktime_check_good _ Hl). simpl.
  unfold presence_check, Py.dict_getitem. rewrite Hvin. simpl.
  rewrite Htvin, Hvout. simpl. rewrite Htvout. simpl. reflexivity.
Qed.

Lemma any_false_intro {A : Type} (cond : A → result bool) (l : list A) :
  Forall (λ x, cond x = Ok false) l → Py.any cond l = Ok false.
Proof. induction 1 as [|x l Hx _ IH]; simpl; [done|]. by rewrite Hx. Qed.

Lemma any_decided_at {A : Type} (cond : A → result bool) (pre post : list A)
    (x : A) (r : result bool) :
  Forall (λ y, cond y = Ok false) pre → cond x = r → r ≠ Ok false →
  Py.any cond (pre ++ x :: post) = match r with Ok _ => Ok true | Raise e => Raise e end.
Proof.
  intros Hpre Hx Hr. induction Hpre as [|y pre Hy _ IH]; simpl.
  - rewrite Hx. destruct r as [[]|]; done.
  - by rewrite Hy.
Qed.

Lemma int_add_value (acc : Z) (v : json) (z : Z) :
  Py.int_add acc v = Ok z ↔ ∃ n, int_value v = Some n ∧ z = acc + n.
Proof.
  destruct v; simpl; split; intros H;
    try discriminate; try (destruct H as (n & Hn & Hz); discriminate).
  - simplify_eq. eauto.
  - destruct H as (n & Hn & ->). by simplify_eq.
  - simplify_eq. eauto.
  - destruct H as (n & Hn & ->). by simplify_eq.
Qed.

Lemma sum_values {A : Type} (item : A → result json) (l : list A) (zs : list Z) :
  Forall2 (λ x z, ∃ v, item x = Ok v ∧ int_value v = Some z) l zs →
  ∀ acc, Py.sum item l acc = Ok (acc + total zs).
Proof.
  induction 1 as [|x z l zs (v & Hv & Hz) _ IH]; intros acc; simpl.
  - f_equal. lia.
  - rewrite Hv. simpl.
    assert (Py.int_add acc v = Ok (acc + z)) as -> by (apply int_add_value; eauto).
    simpl. rewrite IH. f_equal. lia.
Qed.

Lemma sum_Ok_inv {A : Type} (item : A → result json) (l : list A) :
  ∀ acc t, Py.sum item l acc = Ok t →
    ∃ zs, Forall2 (λ x z, ∃ v, item x = Ok v ∧ int_value v = Some z) l zs
      ∧ t = acc + total zs.
Proof.
  induction l as [|x l IH]; intros acc t H; simpl in H.
  - simplify_eq. exists []. split; [constructor | simpl; lia].
  - apply bind_Ok in H as (v & Hv & H). apply bind_Ok in H as (acc' & Hacc & H).
    apply int_add_value in Hacc as (n & Hn & ->).
    apply IH in H as (zs & Hzs & ->).
    exists (n :: zs). split; [constructor; eauto | simpl; lia].
Qed.

Lemma utxo_key_Ok (vin : json) (key : string) :
  Transaction.utxo_key vin = Ok key
  ↔ ∃ fields id vout,
      vin = JDict fields ∧ Py.dict_lookup "txid" fields = Some (JStr id)
      ∧ Py.dict_lookup "vout" fields = Some vout ∧ key = id +:+ Py.str vout.
Proof.
  unfold Transaction.utxo_key. split.
  - intros H. apply bind_Ok in H as (id & Hid & H).
    apply bind_Ok in H as (vout & Hvout & H).
    destruct vin as [| | | | |fields]; try discriminate.
    simpl in Hid, Hvout. unfold Py.dict_getitem in *.
    destruct (Py.dict_lookup "txid" fields) as [id'|] eqn:E1; [|discriminate].
    destruct (Py.dict_lookup "vout" fields) as [vout'|] eqn:E2; [|discriminate].
    simplify_eq. destruct id; try discriminate. simpl in H. simplify_eq.
    eauto 10.
  - intros (fields & id & vout & -> & Hid & Hvout & ->).
    simpl. unfold Py.dict_getitem. rewrite Hid, Hvout. reflexivity.
Qed.

Lemma good_input_checks (tx : Transaction.t) (vin : json) (z : Z) :
  good_input (Transaction.utxo_set tx) vin z →
  Transaction.in_utxo_set tx vin = Ok false
  ∧ (∃ v, Transaction.prevout_value vin = Ok v ∧ int_value v = Some z)
  ∧ Transaction.marked_coinbase vin = Ok false.
Proof.
  intros (fields & id & vout & prevout & v & -> & Hid & Hvout & Hfresh & Hprev
          & Hv & Hz & Hcb).
  repeat split.
  - unfold Transaction.in_utxo_set.
    assert (Transaction.utxo_key (JDict fields) = Ok (id +:+ Py.str vout)) as ->
      by (apply utxo_key_Ok; eauto 10).
    simpl. f_equal. apply bool_decide_eq_false. rewrite Hfresh.
    by intros [? ?].
  - exists v. split; [|done]. unfold Transaction.prevout_value. simpl.
    unfold Py.dict_getitem. rewrite Hprev. simpl. unfold Py.dict_getitem.
    by rewrite Hv.
  - unfold Transaction.marked_coinbase. simpl. by rewrite Hcb.
Qed.

Lemma good_output_checks (vout : json) (z : Z) :
  good_output vout z →
  (Py.getitem vout "value" ≫= λ value, Py.lt_int value 0) = Ok false
  ∧ ∃ v, Py.getitem vout "value" = Ok v ∧ int_value v = Some z.
Proof.
  intros (fields & v & -> & Hv & Hz & Hpos). simpl. unfold Py.dict_getitem.
  rewrite Hv. simpl. split; [|eauto].
  destruct v as [|b|n| | |]; simpl in *; try discriminate; simplify_eq.
  - destruct b; reflexivity.
  - f_equal. apply Z.ltb_ge. lia.
Qed.

Lemma good_inputs_checks (tx : Transaction.t) (inputs : list json) (zs : list Z) :
  Forall2 (good_input (Transaction.utxo_set tx)) inputs zs →
  Py.any (Transaction.in_utxo_set tx) inputs = Ok false
  ∧ Py.sum Transaction.prevout_value inputs 0 = Ok (total zs)
  ∧ Py.any Transaction.marked_coinbase inputs = Ok false.
Proof.
  intros H. repeat split.
  - apply any_false_intro. induction H as [|x z l zs Hx _ IH]; constructor; auto.
    by apply good_input_checks in Hx as (? & _).
  - rewrite (sum_values _ _ zs); [f_equal; lia|].
    induction H as [|x z l zs Hx _ IH]; constructor; auto.
    by apply good_input_checks in Hx as (_ & ? & _).
  - apply any_false_intro. induction H as [|x z l zs Hx _ IH]; constructor; auto.
    by apply good_input_checks in Hx as (_ & _ & ?).
Qed.

Lemma good_outputs_checks (outputs : list json) (zs : list Z) :
  Forall2 good_output outputs zs →
  Py.any (λ o, value ← Py.getitem o "value"; Py.lt_int value 0) outputs = Ok false
  ∧ Py.sum (λ o, Py.getitem o "value") outputs 0 = Ok (total zs).
Proof.
  intros H. split.
  - apply any_false_intro. induction H as [|x z l zs Hx _ IH]; constructor; auto.
    by apply good_output_checks in Hx as (? & _).
  - rewrite (sum_values _ _ zs); [f_equal; lia|].
    induction H as [|x z l zs Hx _ IH]; constructor; auto.
    by apply good_output_checks in Hx as (_ & ?).
Qed.

Lemma well_formed_header (tx : Transaction.t) (inputs outputs : list json) :
  good_version (Transaction.json_data tx) →
  good_locktime (Transaction.json_data tx) →
  Py.dict_lookup "vin" (Transaction.json_data tx) = Some (JList inputs) →
  inputs ≠ [] →
  Py.dict_lookup "vout" (Transaction.json_data tx) = Some (JList outputs) →
  outputs ≠ [] →
  passes_header (Transaction.json_data tx) (JList inputs) (JList outputs).
Proof.
  intros. repeat split; try done.
  - by destruct inputs.
  - by destruct outputs.
Qed.

(** Every well-formed record is accepted. *)
Lemma well_formed_accepted (tx : Transaction.t) :
  well_formed tx → Transaction.is_valid tx = Ok true.
Proof.
  intros (Hv & Hl & Hsize & inputs & outputs & zi & zo & Hvin & Hne & Hvout & Hne'
          & Hin & Hout & Hfee).
  rewrite (is_valid_after_header tx (JList inputs) (JList outputs))
    by by apply well_formed_header.
  assert ((100000 <? serialized_size (Transaction.json_data tx)) = false) as ->
    by (apply Z.ltb_ge; lia).
  unfold checks_after_size. simpl.
  destruct (good_inputs_checks tx inputs zi Hin) as (-> & -> & ->).
  destruct (good_outputs_checks outputs zo Hout) as (-> & ->). simpl.
  assert ((total zi <? total zo) = false) as -> by (apply Z.ltb_ge; lia).
  reflexivity.
Qed.

Lemma version_check_Ok_false (d : pydict) :
  version_check d = Ok false → good_version d.
Proof.
  unfold version_check, Py.dict_getitem. rewrite key_in_lookup.
  destruct (Py.dict_lookup "version" d) as [v|] eqn:Hv; simpl; [|discriminate].
  intros H. injection H as H. apply negb_false_iff, version_test in H as (z & Hz).
  by exists v, z.
Qed.

Lemma presence_check_Ok_false (d : pydict) :
  presence_check d = Ok false →
  ∃ vin vout, Py.dict_lookup "vin" d = Some vin ∧ Py.truthy vin = true
    ∧ Py.dict_lookup "vout" d = Some vout ∧ Py.truthy vout = true.
Proof.
  unfold presence_check, Py.dict_getitem.
  destruct (Py.dict_lookup "vin" d) as [vin|]; simpl; [|discriminate].
  destruct (Py.truthy vin) eqn:Hvin; simpl; [|discriminate].
  destruct (Py.dict_lookup "vout" d) as [vout|]; simpl; [|discriminate].
  destruct (Py.truthy vout) eqn:Hvout; simpl; [|discriminate].
  eauto 10.
Qed.

Lemma Forall2_with_Forall {A B : Type} (P : A → Prop) (Q : A → B → Prop)
    (l : list A) (k : list B) :
  Forall P l → Forall2 Q l k → Forall2 (λ x y, P x ∧ Q x y) l k.
Proof.
  intros HP HQ. induction HQ as [|x y l k Hxy _ IH]; [constructor|].
  inversion HP; subst. constructor; auto.
Qed.

Lemma good_input_intro (tx : Transaction.t) (vin : json) (z : Z) :
  Transaction.in_utxo_set tx vin = Ok false →
  (∃ v, Transaction.prevout_value vin = Ok v ∧ int_value v = Some z) →
  Transaction.marked_coinbase vin = Ok false →
  good_input (Transaction.utxo_set tx) vin z.
Proof.
  intros Hfresh (v & Hv & Hz) Hcb.
  unfold Transaction.in_utxo_set in Hfresh.
  apply bind_Ok in Hfresh as (key & Hkey & Hfresh).
  apply utxo_key_Ok in Hkey as (fields & id & vout & -> & Hid & Hvout & ->).
  injection Hfresh as Hfresh. apply bool_decide_eq_false in Hfresh.
  apply eq_None_not_Some in Hfresh.
  unfold Transaction.prevout_value in Hv.
  apply bind_Ok in Hv as (prevout & Hprev & Hv).
  simpl in Hprev. unfold Py.dict_getitem in Hprev.
  destruct (Py.dict_lookup "prevout" fields) as [p|] eqn:Ep; [|discriminate].
  simplify_eq. destruct prevout as [| | | | |pfields]; try discriminate.
  simpl in Hv. unfold Py.dict_getitem in Hv.
  destruct (Py.dict_lookup "value" pfields) as [v'|] eqn:Ev; [|discriminate].
  simplify_eq.
  unfold Transaction.marked_coinbase in Hcb. simpl in Hcb. simplify_eq.
  exists fields, id, vout, pfields, v. done.
Qed.

Lemma good_output_intro (vout : json) (z : Z) :
  (Py.getitem vout "value" ≫= λ value, Py.lt_int value 0) = Ok false →
  (∃ v, Py.getitem vout "value" = Ok v ∧ int_value v = Some z) →
  good_output vout z.
Proof.
  intros Hneg (v & Hv & Hz). rewrite Hv in Hneg. simpl in Hneg.
  destruct vout as [| | | | |fields]; try discriminate.
  simpl in Hv. unfold Py.dict_getitem in Hv.
  destruct (Py.dict_lookup "value" fields) as [v'|] eqn:Ev; [|discriminate].
  simplify_eq. exists fields, v. repeat split; try done.
  destruct v as [|b|n| | |]; simpl in *; try discriminate.
  - injection Hz as <-. destruct b; simpl; lia.
  - injection Hz as <-. injection Hneg as Hneg. apply Z.ltb_ge in Hneg. lia.
Qed.

Lemma checked_vout_is_list (vout : json) (outputs : list json) :
  Py.truthy vout = true → Py.iter vout = Ok outputs →
  Py.any (λ o, value ← Py.getitem o "value"; Py.lt_int value 0) outputs = Ok false →
  vout = JList outputs.
Proof.
  intros Htrue Hiter Hany.
  destruct vout as [| | |s|l|d]; simpl in Hiter; try discriminate.
  - destruct s; [discriminate|]. by simplify_eq/=.
  - by simplify_eq.
  - destruct d; [discriminate|]. by simplify_eq/=.
Qed.

(** Every accepted record is well formed. *)
Lemma accepted_well_formed (tx : Transaction.t) :
  Transaction.is_valid tx = Ok true → well_formed tx.
Proof.
  rewrite is_valid_unfold. intros H.
  apply bind_Ok in H as ([] & Hc1 & H); [discriminate|].
  apply bind_Ok in H as ([] & Hc2 & H); [discriminate|].
  apply bind_Ok in H as ([] & Hc3 & H); [discriminate|].
  destruct (100000 <? _) eqn:Hsize; [discriminate|]. apply Z.ltb_ge in Hsize.
  apply version_check_Ok_false in Hc1. apply locktime_check_Ok_false in Hc2.
  apply presence_check_Ok_false in Hc3
    as (vin & vout & Hvin & Htvin & Hvout & Htvout).
  unfold Py.dict_getitem in H. rewrite Hvin, Hvout in H. simpl in H.
  unfold checks_after_size in H.
  apply bind_Ok in H as (inputs & Hinputs & H).
  apply bind_Ok in H as ([] & Hc5 & H); [discriminate|].
  apply bind_Ok in H as (outputs & Houtputs & H).
  apply bind_Ok in H as ([] & Hc6 & H); [discriminate|].
  apply bind_Ok in H as (total_in & Hin & H).
  apply bind_Ok in H as (total_out & Hout & H).
  destruct (total_in <? total_out) eqn:Hfee; [discriminate|]. apply Z.ltb_ge in Hfee.
  apply bind_Ok in H as (coinbase & Hcb & H).
  apply bind_Ok in H as ([] & Hc8 & H); [discriminate|].
  pose proof (accepted_vin_is_list tx vin inputs Htvin Hinputs Hc5) as ->.
  pose proof (checked_vout_is_list vout outputs Htvout Houtputs Hc6) as ->.
  apply sum_Ok_inv in Hin as (zi & Hzi & ->).
  apply sum_Ok_inv in Hout as (zo & Hzo & ->).
  pose proof (any_Ok_false _ _ Hc5) as Hfresh.
  pose proof (any_Ok_false _ _ Hc6) as Hnonneg.
  assert (coinbase = false) as ->.
  { destruct coinbase; [exfalso|done]. simpl in Hc8.
    destruct (negb (Z.of_nat (length inputs) =? 1)); [discriminate|].
    destruct Hzi as [|x z l zs (v & Hv & _) _]; [discriminate|].
    simpl in Hc8. unfold Transaction.prevout_value in Hv.
    apply bind_Ok in Hv as (p & Hp & _).
    destruct x as [| | | | |fields]; try discriminate.
    simpl in Hp, Hc8. unfold Py.dict_getitem in Hp. rewrite key_in_lookup in Hc8.
    destruct (Py.dict_lookup "prevout" fields); discriminate. }
  pose proof (any_Ok_false _ _ Hcb) as Hplain.
  repeat split; try done.
  exists inputs, outputs, zi, zo. repeat split; try done.
  - by destruct inputs.
  - by destruct outputs.
  - pose proof (Forall2_with_Forall _ _ _ _ Hfresh
                  (Forall2_with_Forall _ _ _ _ Hplain Hzi)) as Hall.
    eapply Forall2_impl; [exact Hall|]. intros x z (? & ? & ?).
    by apply good_input_intro.
  - pose proof (Forall2_with_Forall _ _ _ _ Hnonneg Hzo) as Hall.
    eapply Forall2_impl; [exact Hall|]. intros x z (? & ?).
    by apply good_output_intro.
Qed.

(** X1. A record without a version entry, or whose version is not equal
    to 1 or 2, is rejected with False before anything else is looked at:
    no other entry can make the call raise. *)
Theorem is_valid_rejects_bad_version (tx : Transaction.t) :
  ¬ good_version (Transaction.json_data tx) →
  Transaction.is_valid tx = Ok false.
Proof.
  intros H. rewrite is_valid_unfold, (version_check_bad _ H). reflexivity.
Qed.

Lemma is_valid_rejects_bad_version_witness :
  Transaction.is_valid (Transaction.mk [("version", JInt 3)] ∅) = Ok false
  ∧ Transaction.is_valid (Transaction.mk [("locktime", JInt 0)] ∅) = Ok false.
Proof.
  split; apply is_valid_rejects_bad_version;
    intros (v & z & Hv & Hz & Hz'); vm_compute in Hv; simplify_eq;
    vm_compute in Hz; simplify_eq; lia.
Defined.

(** X2. With a good version, a record without a locktime entry or with a
    negative locktime is rejected with False, while a locktime that is not
    a number (a str, a list, a dict or null) makes the call raise
    TypeError in the comparison with 0. *)
Theorem is_valid_locktime (tx : Transaction.t) :
  good_version (Transaction.json_data tx) →
  (Py.dict_lookup "locktime" (Transaction.json_data tx) = None →
     Transaction.is_valid tx = Ok false)
  ∧ (∀ v z, Py.dict_lookup "locktime" (Transaction.json_data tx) = Some v →
       int_value v = Some z → z < 0 → Transaction.is_valid tx = Ok false)
  ∧ (∀ v, Py.dict_lookup "locktime" (Transaction.json_data tx) = Some v →
       int_value v = None → Transaction.is_valid tx = Raise TypeError).
Proof.
  intros Hv. rewrite is_valid_unfold, (version_check_good _ Hv). simpl.
  unfold locktime_check, Py.dict_getitem. rewrite key_in_lookup.
  repeat split.
  - intros ->. reflexivity.
  - intros v z -> Hz Hneg. simpl.
    destruct v as [|b|n| | |]; simpl in *; try discriminate.
    + destruct b; simpl in *; simplify_eq; lia.
    + injection Hz as ->.
      assert ((z =? 0) = false) as -> by (apply Z.eqb_neq; lia). simpl.
      assert ((0 <? z) = false) as -> by (apply Z.ltb_ge; lia). reflexivity.
  - intros v -> Hz. simpl. destruct v; simpl in *; try discriminate; reflexivity.
Qed.

Lemma good_version_sample (rest : pydict) : good_version (("version", JInt 1) :: rest).
Proof. exists (JInt 1), 1. auto. Qed.

Lemma is_valid_locktime_witness :
  Transaction.is_valid
    (Transaction.mk [("version", JInt 1); ("locktime", JInt (-1))] ∅) = Ok false
  ∧ Transaction.is_valid
      (Transaction.mk [("version", JInt 1); ("locktime", JStr "0")] ∅)
    = Raise TypeError.
Proof.
  split.
  - apply (proj1 (proj2 (is_valid_locktime
             (Transaction.mk [("version", JInt 1); ("locktime", JInt (-1))] ∅)
             (good_version_sample _))) (JInt (-1)) (-1)); [reflexivity..|lia].
  - apply (proj2 (proj2 (is_valid_locktime
             (Transaction.mk [("version", JInt 1); ("locktime", JStr "0")] ∅)
             (good_version_sample _))) (JStr "0")); reflexivity.
Defined.

Lemma is_valid_empty_vout (tx : Transaction.t) (vin vout : json) :
  good_version (Transaction.json_data tx) →
  good_locktime (Transaction.json_data tx) →
  Py.dict_lookup "vin" (Transaction.json_data tx) = Some vin →
  Py.dict_lookup "vout" (Transaction.json_data tx) = Some vout →
  Py.truthy vout = false → Transaction.is_valid tx = Ok false.
Proof.
  intros Hv Hl Hvin Hvout Hempty.
  rewrite is_valid_unfold, (version_check_good _ Hv), (locktime_check_good _ Hl).
  simpl. unfold presence_check, Py.dict_getitem. rewrite Hvin, Hvout. simpl.
  rewrite Hempty. by destruct (Py.truthy vin).
Qed.

(** X3. With a good version and locktime, an empty (falsy) [vin] is
    rejected with False even when [vout] is missing, and a non-empty [vin]
    with an empty [vout] is rejected with False. *)
Theorem is_valid_rejects_empty_vin_or_vout (tx : Transaction.t) :
  good_version (Transaction.json_data tx) →
  good_locktime (Transaction.json_data tx) →
  (∀ vin, Py.dict_lookup "vin" (Transaction.json_data tx) = Some vin →
     Py.truthy vin = false → Transaction.is_valid tx = Ok false)
  ∧ (∀ vin vout, Py.dict_lookup "vin" (Transaction.json_data tx) = Some vin →
       Py.dict_lookup "vout" (Transaction.json_data tx) = Some vout →
       Py.truthy vout = false → Transaction.is_valid tx = Ok false).
Proof.
  intros Hv Hl. split.
  - intros vin Hvin Hempty.
    rewrite is_valid_unfold, (version_check_good _ Hv), (locktime_check_good _ Hl).
    simpl. unfold presence_check, Py.dict_getitem. rewrite Hvin. simpl.
    by rewrite Hempty.
  - intros vin vout Hvin Hvout Hempty. by apply (is_valid_empty_vout tx vin vout).
Qed.

Lemma good_header_sample (rest : pydict) :
  good_version (("version", JInt 1) :: ("locktime", JInt 0) :: rest)
  ∧ good_locktime (("version", JInt 1) :: ("locktime", JInt 0) :: rest).
Proof.
  split; [apply good_version_sample|]. exists (JInt 0), 0. repeat split. lia.
Qed.

Lemma is_valid_rejects_empty_vin_or_vout_witness :
  Transaction.is_valid
    (Transaction.mk [("version", JInt 1); ("locktime", JInt 0); ("vin", JList [])] ∅)
  = Ok false
  ∧ Transaction.is_valid (Transaction.mk (sample_record [] 3) ∅) = Ok false.
Proof.
  split.
  - apply (proj1 (is_valid_rejects_empty_vin_or_vout
             (Transaction.mk
                [("version", JInt 1); ("locktime", JInt 0); ("vin", JList [])] ∅)
             (proj1 (good_header_sample _)) (proj2 (good_header_sample _)))
             (JList [])); reflexivity.
  - apply (proj1 (is_valid_rejects_empty_vin_or_vout
             (Transaction.mk (sample_record [] 3) ∅)
             (proj1 (good_header_sample _)) (proj2 (good_header_sample _)))
             (JList [])); reflexivity.
Defined.

(** X4. With a good version and locktime, a record without a [vin] entry
    makes the call raise KeyError, and so does a record with a non-empty
    [vin] and no [vout] entry: these two keys are subscripted without a
    membership test. *)
Theorem is_valid_raises_on_missing_vin_or_vout (tx : Transaction.t) :
  good_version (Transaction.json_data tx) →
  good_locktime (Transaction.json_data tx) →
  (Py.dict_lookup "vin" (Transaction.json_data tx) = None →
     Transaction.is_valid tx = Raise KeyError)
  ∧ (∀ vin, Py.dict_lookup "vin" (Transaction.json_data tx) = Some vin →
       Py.truthy vin = true →
       Py.dict_lookup "vout" (Transaction.json_data tx) = None →
       Transaction.is_valid tx = Raise KeyError).
Proof.
  intros Hv Hl.
  rewrite is_valid_unfold, (version_check_good _ Hv), (locktime_check_good _ Hl).
  simpl. unfold presence_check, Py.dict_getitem. split.
  - intros ->. reflexivity.
  - intros vin -> Hvin ->. simpl. by rewrite Hvin.
Qed.

Lemma is_valid_raises_on_missing_vin_or_vout_witness :
  Transaction.is_valid
    (Transaction.mk
       [("version", JInt 1); ("locktime", JInt 0);
        ("vin", JList [sample_input "aa" 0 5])] ∅)
  = Raise KeyError.
Proof.
  apply (proj2 (is_valid_raises_on_missing_vin_or_vout
           (Transaction.mk
              [("version", JInt 1); ("locktime", JInt 0);
               ("vin", JList [sample_input "aa" 0 5])] ∅)
           (proj1 (good_header_sample _)) (proj2 (good_header_sample _)))
           (JList [sample_input "aa" 0 5])); reflexivity.
Defined.

(** X5. A record that passes the version, locktime and emptiness tests and
    whose JSON text, as [json.dumps] writes it, is longer than 100000 bytes
    is rejected with False; nothing of its inputs or outputs is looked at. *)
Theorem is_valid_rejects_oversize (tx : Transaction.t) (vin vout : json) :
  passes_header (Transaction.json_data tx) vin vout →
  100000 < serialized_size (Transaction.json_data tx) →
  Transaction.is_valid tx = Ok false.
Proof.
  intros Hh Hsize. rewrite (is_valid_after_header tx vin vout Hh).
  apply Z.ltb_lt in Hsize. by rewrite Hsize.
Qed.

Lemma is_valid_rejects_oversize_witness :
  Transaction.is_valid (Transaction.mk long_record ∅) = Ok false.
Proof.
  apply (is_valid_rejects_oversize (Transaction.mk long_record ∅)
           (JList [JInt 7])
           (JList [JDict [("value", JInt 3)]])).
  - destruct (good_header_sample
                [("vin", JList [JInt 7]);
                 ("vout", JList [JDict [("value", JInt 3)]]);
                 ("memo", JStr long_text)]) as [Hv Hl].
    repeat split; try done.
  - vm_compute. reflexivity.
Defined.

Lemma is_valid_past_presence (tx : Transaction.t) (vin vout : json) :
  good_version (Transaction.json_data tx) →
  good_locktime (Transaction.json_data tx) →
  Py.dict_lookup "vin" (Transaction.json_data tx) = Some vin →
  Py.truthy vin = true →
  Py.dict_lookup "vout" (Transaction.json_data tx) = Some vout →
  checks_after_size tx vin vout = Ok false →
  Transaction.is_valid tx = Ok false.
Proof.
  intros Hv Hl Hvin Htvin Hvout Hrest.
  destruct (Py.truthy vout) eqn:Htvout.
  - rewrite (is_valid_after_header tx vin vout) by done.
    by destruct (100000 <? _).
  - by apply (is_valid_empty_vout tx vin vout).
Qed.

(** X6. A record whose inputs, read in order, reach one whose key
    [txid + str(vout)] is a key of the UTXO set, after inputs whose keys
    are not, is rejected with False (given a good version and locktime and
    a [vout] entry); what stands after that input is not looked at. *)
Theorem is_valid_rejects_known_key (tx : Transaction.t) (pre post : list json)
    (vin vout : json) (key : string) :
  good_version (Transaction.json_data tx) →
  good_locktime (Transaction.json_data tx) →
  Py.dict_lookup "vin" (Transaction.json_data tx) = Some (JList (pre ++ vin :: post)) →
  Py.dict_lookup "vout" (Transaction.json_data tx) = Some vout →
  Forall (λ x, ∃ k, Transaction.utxo_key x = Ok k
                 ∧ Transaction.utxo_set tx !! k = None) pre →
  Transaction.utxo_key vin = Ok key →
  is_Some (Transaction.utxo_set tx !! key) →
  Transaction.is_valid tx = Ok false.
Proof.
  intros Hv Hl Hvin Hvout Hpre Hkey Hknown.
  apply (is_valid_past_presence tx (JList (pre ++ vin :: post)) vout);
    try done; [by destruct pre|].
  unfold checks_after_size. simpl.
  rewrite (any_decided_at (Transaction.in_utxo_set tx) pre post vin (Ok true));
    [reflexivity| | |done].
  - eapply Forall_impl; [exact Hpre|]. intros x (k & Hk & Hnone).
    unfold Transaction.in_utxo_set. rewrite Hk. simpl. f_equal.
    apply bool_decide_eq_false. rewrite Hnone. by intros [? ?].
  - unfold Transaction.in_utxo_set. rewrite Hkey. simpl. f_equal.
    by apply bool_decide_eq_true.
Qed.

Lemma is_valid_rejects_known_key_witness :
  Transaction.is_valid
    (Transaction.mk (sample_record [sample_input "aa" 0 5; sample_input "bb" 1 5; JNull] 3)
       {["bb1" := 9]})
  = Ok false.
Proof.
  apply (is_valid_rejects_known_key _ [sample_input "aa" 0 5] [JNull]
           (sample_input "bb" 1 5) (JList [JDict [("value", JInt 3)]]) "bb1");
    try reflexivity.
  - apply good_header_sample.
  - apply good_header_sample.
  - repeat constructor. exists "aa0". split; reflexivity.
  - exists 9. reflexivity.
Defined.

(** X7. When no input key is in the UTXO set, a record whose outputs, read
    in order, reach one with a negative value, after outputs with values
    of at least 0, is rejected with False. *)
Theorem is_valid_rejects_negative_output (tx : Transaction.t)
    (inputs pre post : list json) (fields : pydict) (v : json) (z : Z) :
  good_version (Transaction.json_data tx) →
  good_locktime (Transaction.json_data tx) →
  Py.dict_lookup "vin" (Transaction.json_data tx) = Some (JList inputs) →
  inputs ≠ [] →
  Forall (λ x, ∃ k, Transaction.utxo_key x = Ok k
                 ∧ Transaction.utxo_set tx !! k = None) inputs →
  Py.dict_lookup "vout" (Transaction.json_data tx)
  = Some (JList (pre ++ JDict fields :: post)) →
  Forall (λ o, ∃ paid, good_output o paid) pre →
  Py.dict_lookup "value" fields = Some v → int_value v = Some z → z < 0 →
  Transaction.is_valid tx = Ok false.
Proof.
  intros Hv Hl Hvin Hne Hfresh Hvout Hpre Hval Hz Hneg.
  apply (is_valid_past_presence tx (JList inputs) (JList (pre ++ JDict fields :: post)));
    try done; [by destruct inputs|].
  unfold checks_after_size. simpl.
  rewrite (any_false_intro (Transaction.in_utxo_set tx)).
  - simpl.
    rewrite (any_decided_at (λ o, value ← Py.getitem o "value"; Py.lt_int value 0)
               pre post (JDict fields) (Ok true));
      [reflexivity| | |done].
    + eapply Forall_impl; [exact Hpre|]. intros o (paid & Ho).
      by apply good_output_checks in Ho as (? & _).
    + simpl. unfold Py.dict_getitem. rewrite Hval. simpl.
      destruct v as [|b|n| | |]; simpl in *; try discriminate.
      * destruct b; simpl in *; simplify_eq; lia.
      * injection Hz as ->. f_equal. apply Z.ltb_lt. lia.
  - eapply Forall_impl; [exact Hfresh|]. intros x (k & Hk & Hnone).
    unfold Transaction.in_utxo_set. rewrite Hk. simpl. f_equal.
    apply bool_decide_eq_false. rewrite Hnone. by intros [? ?].
Qed.

Lemma is_valid_rejects_negative_output_witness :
  Transaction.is_valid (Transaction.mk (sample_record [sample_input "aa" 0 5] (-1)) ∅)
  = Ok false.
Proof.
  apply (is_valid_rejects_negative_output _ [sample_input "aa" 0 5] [] []
           [("value", JInt (-1))] (JInt (-1)) (-1));
    try reflexivity; try done.
  - apply good_header_sample.
  - apply good_header_sample.
  - repeat constructor. exists "aa0". split; reflexivity.
Defined.

(** X8. A record whose inputs and outputs are all well formed but whose
    outputs add up to more than the prevout values of its inputs is
    rejected with False. *)
Theorem is_valid_rejects_overspend (tx : Transaction.t)
    (inputs outputs : list json) (paid_in paid_out : list Z) :
  good_version (Transaction.json_data tx) →
  good_locktime (Transaction.json_data tx) →
  Py.dict_lookup "vin" (Transaction.json_data tx) = Some (JList inputs) →
  inputs ≠ [] →
  Py.dict_lookup "vout" (Transaction.json_data tx) = Some (JList outputs) →
  Forall2 (good_input (Transaction.utxo_set tx)) inputs paid_in →
  Forall2 good_output outputs paid_out →
  total paid_in < total paid_out →
  Transaction.is_valid tx = Ok false.
Proof.
  intros Hv Hl Hvin Hne Hvout Hin Hout Hfee.
  apply (is_valid_past_presence tx (JList inputs) (JList outputs));
    try done; [by destruct inputs|].
  unfold checks_after_size. simpl.
  destruct (good_inputs_checks tx inputs paid_in Hin) as (-> & -> & _).
  destruct (good_outputs_checks outputs paid_out Hout) as (-> & ->). simpl.
  apply Z.ltb_lt in Hfee. by rewrite Hfee.
Qed.

Lemma sample_input_good (utxo : gmap string Z) (id : string) (vout value : Z) :
  utxo !! (id +:+ Py.str_int vout) = None →
  good_input utxo (sample_input id vout value) value.
Proof.
  intros H.
  exists [("txid", JStr id); ("vout", JInt vout);
          ("prevout", JDict [("value", JInt value)])],
    id, (JInt vout), [("value", JInt value)], (JInt value).
  repeat split. exact H.
Qed.

Lemma sample_output_good (paid : Z) :
  0 ≤ paid → good_output (JDict [("value", JInt paid)]) paid.
Proof. intros H. exists [("value", JInt paid)], (JInt paid). done. Qed.

Lemma is_valid_rejects_overspend_witness :
  Transaction.is_valid (Transaction.mk (sample_record [sample_input "aa" 0 5] 6) ∅)
  = Ok false.
Proof.
  apply (is_valid_rejects_overspend _ [sample_input "aa" 0 5]
           [JDict [("value", JInt 6)]] [5] [6]); try reflexivity; try done.
  - apply good_header_sample.
  - apply good_header_sample.
  - repeat constructor. by apply sample_input_good.
  - repeat constructor. apply sample_output_good. lia.
Defined.

(** X9. Every well-formed record is accepted: with a good version and
    locktime, at most 100000 bytes of JSON text, a non-empty list of
    inputs (each a dict with a str txid, a vout, a key that is not in the
    UTXO set, a prevout with an integer value and no true [is_coinbase]
    mark), a non-empty list of outputs with integer values of at least 0,
    and outputs that add up to at most the input values, [is_valid]
    returns True.  The bound on the size of the integers is what an
    interpreter with the digit limit needs to print them; the model prints
    every integer, so the proof has no use for it. *)
Theorem well_formed_is_accepted (tx : Transaction.t) :
  well_formed tx →
  small_ints (JDict (Transaction.json_data tx)) →
  Transaction.is_valid tx = Ok true.
Proof. intros H _. by apply well_formed_accepted. Qed.

Lemma well_formed_is_accepted_witness :
  Transaction.is_valid (sample_tx "a0") = Ok true.
Proof.
  apply well_formed_is_accepted.
  - split; [apply good_header_sample|]. split; [apply good_header_sample|].
    split; [by vm_compute|].
    exists [sample_input "a0" 0 5], [JDict [("value", JInt 3)]], [5], [3].
    split; [reflexivity|]. split; [done|].
    split; [reflexivity|]. split; [done|].
    split; [|split].
    + repeat constructor. by apply sample_input_good.
    + repeat constructor. apply sample_output_good. lia.
    + simpl. lia.
  - vm_compute. repeat split.
Defined.

(** X10. No record with an input marked [is_coinbase] is ever accepted:
    the sum of the input values needs a [prevout] in every input and the
    coinbase rule refuses a [prevout] in the first one. *)
Theorem coinbase_never_accepted (tx : Transaction.t) (inputs : list json) :
  Py.dict_lookup "vin" (Transaction.json_data tx) = Some (JList inputs) →
  Exists (λ vin, Transaction.marked_coinbase vin = Ok true) inputs →
  Transaction.is_valid tx ≠ Ok true.
Proof.
  intros Hvin Hmarked H.
  apply accepted_well_formed in H
    as (_ & _ & _ & inputs' & _ & paid & _ & Hvin' & _ & _ & _ & Hin & _).
  rewrite Hvin in Hvin'. simplify_eq.
  apply Exists_exists in Hmarked as (x & Hx & Hm).
  apply list_elem_of_lookup in Hx as (i & Hi).
  destruct (Forall2_lookup_l _ _ _ _ _ Hin Hi) as (z & _ & Hgood).
  apply good_input_checks in Hgood as (_ & _ & Hplain). congruence.
Qed.

Lemma coinbase_never_accepted_witness :
  Transaction.is_valid (Transaction.mk (sample_record [coinbase_input] 0) ∅) ≠ Ok true.
Proof.
  apply (coinbase_never_accepted _ [coinbase_input]); [reflexivity|].
  left. reflexivity.
Defined.


(** X11. An accepted record has a txid and it is a str, the txid entry of
    its first input: the accessor cannot raise on it. *)
Theorem accepted_has_str_txid (tx : Transaction.t) :
  Transaction.is_valid tx = Ok true →
  ∃ inputs fields id,
    Py.dict_lookup "vin" (Transaction.json_data tx) = Some (JList (JDict fields :: inputs))
    ∧ Py.dict_lookup "txid" fields = Some (JStr id)
    ∧ Transaction.txid tx = Ok (JStr id).
Proof.
  intros H.
  apply accepted_well_formed in H
    as (_ & _ & _ & inputs & _ & paid & _ & Hvin & Hne & _ & _ & Hin & _).
  destruct Hin as [|x z inputs paid Hx _]; [done|].
  destruct Hx as (fields & id & _ & _ & _ & -> & Hid & _).
  exists inputs, fields, id. repeat split; try done.
  unfold Transaction.txid, Py.dict_getitem. rewrite Hvin. simpl.
  unfold Py.dict_getitem. by rewrite Hid.
Qed.

Lemma accepted_has_str_txid_witness :
  ∃ inputs fields id,
    Py.dict_lookup "vin" (Transaction.json_data (sample_tx "a0"))
    = Some (JList (JDict fields :: inputs))
    ∧ Py.dict_lookup "txid" fields = Some (JStr id)
    ∧ Transaction.txid (sample_tx "a0") = Ok (JStr id).
Proof. apply accepted_has_str_txid. vm_compute. reflexivity. Defined.

(** X12. How the txid accessor fails: KeyError without a [vin] entry, with
    a dict as [vin], or with a first input that is a dict without a [txid]
    entry; TypeError when [vin] is null, a bool or a number, a non-empty
    str, or a list whose first element is not a dict; IndexError when
    [vin] is an empty list or an empty str. *)
Theorem txid_failures (tx : Transaction.t) :
  let vin := Py.dict_lookup "vin" (Transaction.json_data tx) in
  (vin = None → Transaction.txid tx = Raise KeyError)
  ∧ (∀ d, vin = Some (JDict d) → Transaction.txid tx = Raise KeyError)
  ∧ (∀ fields rest, vin = Some (JList (JDict fields :: rest)) →
       Py.dict_lookup "txid" fields = None → Transaction.txid tx = Raise KeyError)
  ∧ (∀ v, vin = Some v → (v = JNull ∨ (∃ b, v = JBool b) ∨ ∃ z, v = JInt z) →
       Transaction.txid tx = Raise TypeError)
  ∧ (∀ c s, vin = Some (JStr (String c s)) → Transaction.txid tx = Raise TypeError)
  ∧ (∀ first rest, vin = Some (JList (first :: rest)) →
       (∀ fields, first ≠ JDict fields) → Transaction.txid tx = Raise TypeError)
  ∧ (vin = Some (JList []) ∨ vin = Some (JStr "") →
       Transaction.txid tx = Raise IndexError).
Proof.
  unfold Transaction.txid, Py.dict_getitem. simpl. repeat split.
  - intros ->. reflexivity.
  - intros d ->. reflexivity.
  - intros fields rest -> H. simpl. unfold Py.dict_getitem. by rewrite H.
  - intros v -> [->|[[b ->]|[z ->]]]; reflexivity.
  - intros c s ->. reflexivity.
  - intros first rest -> H. simpl. destruct first; try reflexivity. by destruct (H d).
  - intros [->| ->]; reflexivity.
Qed.

Lemma txid_failures_witness :
  Transaction.txid (Transaction.mk record_without_vin ∅) = Raise KeyError
  ∧ Transaction.txid (Transaction.mk [("vin", JList [JStr "aa"])] ∅) = Raise TypeError.
Proof.
  split.
  - apply (proj1 (txid_failures (Transaction.mk record_without_vin ∅))). reflexivity.
  - apply (proj1 (proj2 (proj2 (proj2 (proj2 (proj2
             (txid_failures (Transaction.mk [("vin", JList [JStr "aa"])] ∅)))))))
             (JStr "aa") []); [reflexivity|]. intros fields. discriminate.
Defined.

(** ** More on Block *)

Lemma mapM_raise_at {A B : Type} (f : A → result B) (pre post : list A) (x : A)
    (e : exn) :
  Forall (λ y, ∃ v, f y = Ok v) pre → f x = Raise e →
  mapM f (pre ++ x :: post) = Raise e.
Proof.
  intros Hpre Hx. induction Hpre as [|y pre (v & Hv) _ IH]; simpl.
  - by rewrite Hx.
  - rewrite Hv. simpl. by rewrite IH.
Qed.




(** X14. How the Merkle root fails: the txids are read in block order and
    the first accessor that raises decides the exception; when every
    accessor returns but some txid is not a str, the call raises
    TypeError. *)
Theorem merkle_root_failures (b : Block.t) :
  (∀ pre tx post e,
     Block.transactions b = pre ++ tx :: post →
     Forall (λ t, ∃ v, Transaction.txid t = Ok v) pre →
     Transaction.txid tx = Raise e →
     Block.merkle_root b = Raise e)
  ∧ (∀ txids,
       Forall2 (λ tx v, Transaction.txid tx = Ok v) (Block.transactions b) txids →
       Exists (λ v, ∀ s, v ≠ JStr s) txids →
       Block.merkle_root b = Raise TypeError).
Proof.
  unfold Block.merkle_root. split.
  - intros pre tx post e -> Hpre Htx. by rewrite (mapM_raise_at _ pre post tx e).
  - intros txids Hall Hbad. apply mapM_result_Ok in Hall. rewrite Hall. simpl.
    destruct (mapM Block.as_str txids) as [ids|] eqn:E; [|reflexivity].
    exfalso. apply mapM_Some in E.
    apply Exists_exists in Hbad as (v & Hv & Hnot).
    apply list_elem_of_lookup in Hv as (i & Hi).
    destruct (Forall2_lookup_l _ _ _ _ _ E Hi) as (s & _ & Hs).
    apply as_str_Some in Hs. by apply (Hnot s).
Qed.

Lemma merkle_root_failures_witness :
  Block.merkle_root
    (Block.mk [sample_tx "a0"; Transaction.mk record_without_vin ∅; empty_vin_tx] "" 0 "")
  = Raise KeyError
  ∧ Block.merkle_root
      (Block.mk [Transaction.mk [("vin", JList [JDict [("txid", JInt 7)]])] ∅] "" 0 "")
    = Raise TypeError.
Proof.
  split.
  - apply (proj1 (merkle_root_failures _) [sample_tx "a0"]
             (Transaction.mk record_without_vin ∅) [empty_vin_tx]);
      [reflexivity| |reflexivity].
    repeat constructor. eexists. reflexivity.
  - apply (proj2 (merkle_root_failures _) [JInt 7]).
    + repeat constructor.
    + left. intros s. discriminate.
Defined.

Lemma hex_digit_is_hex (n : Z) : nibble n → is_hex_digit (Py.hex_digit n) = true.
Proof.
  unfold nibble. intros Hn.
  assert (n = 0 ∨ n = 1 ∨ n = 2 ∨ n = 3 ∨ n = 4 ∨ n = 5 ∨ n = 6 ∨ n = 7 ∨ n = 8
          ∨ n = 9 ∨ n = 10 ∨ n = 11 ∨ n = 12 ∨ n = 13 ∨ n = 14 ∨ n = 15) as Hcases
    by lia.
  repeat (destruct Hcases as [->|Hcases]; [reflexivity|]). by subst.
Qed.

Lemma string_of_list_ascii_length (cs : list ascii) :
  String.length (string_of_list_ascii cs) = length cs.
Proof. induction cs; simpl; auto. Qed.

Lemma sha256_hex_hex64 (s : string) : hex64 (sha256_hex s).
Proof.
  unfold hex64, sha256_hex, SHA256.hexdigest, Py.chars.
  destruct (hex_nibbles_spec (Py.encode s)) as [Hall Hlen].
  rewrite string_of_list_ascii_length, length_map, Hlen.
  split; [reflexivity|].
  rewrite list_ascii_of_string_of_list_ascii. apply forallb_forall.
  intros c Hc. apply in_map_iff in Hc as (n & <- & Hn).
  apply hex_digit_is_hex. rewrite Forall_forall in Hall. apply Hall.
  by apply list_elem_of_In.
Qed.

(** X15. Every digest the block computes is a string of 64 lowercase
    hexadecimal digits: the Merkle root, the result of [calculate_hash],
    and the hash of a block that [mine] returns. *)
Theorem block_digests_are_hex64 (b : Block.t) :
  (∀ r, Block.merkle_root b = Ok r → hex64 r)
  ∧ (∀ h, Block.calculate_hash b = Ok h → hex64 h)
  ∧ (∀ fuel difficulty b',
       Block.mine fuel b difficulty = Some (Ok b') → hex64 (Block.hash b')).
Proof.
  split; [|split].
  - intros r H. apply merkle_root_Ok in H as (ids & _ & ->). apply sha256_hex_hex64.
  - intros h H. unfold Block.calculate_hash in H.
    apply bind_Ok in H as (root & _ & H). injection H as <-. apply sha256_hex_hex64.
  - intros fuel difficulty b' H.
    apply mine_Ok in H as (target & root & _ & _ & Hroot & H).
    apply (mine_loop_sound _ _ _ _ root Hroot) in H as (_ & _ & _ & -> & _).
    apply sha256_hex_hex64.
Qed.

Lemma block_digests_are_hex64_witness :
  hex64 "e3b0c44298fc1c149afbf4c8996fb92427ae41e4649b934ca495991b7852b855".
Proof.
  apply (proj1 (block_digests_are_hex64 empty_block)). vm_compute. reflexivity.
Defined.

Lemma int16_raises_value_error (s : string) (e : exn) :
  Py.int16 s = Raise e → e = ValueError.
Proof.
  unfold Py.int16. destruct (Py.split_sign _) as [sign cs].
  destruct (Py.skip_prefix cs) as [|c cs']; [congruence|].
  destruct (Py.digit_value c); [|congruence].
  destruct (Py.digits _ _ _) as [[v rest]|]; [|congruence].
  destruct (Py.skip_spaces rest); congruence.
Qed.

(** X16. The contract errors of [mine] come before any hashing and do not
    depend on the block: a difficulty that is not 64 characters long
    raises AssertionError, and one of 64 characters that [int(_, 16)]
    does not accept raises ValueError. *)
Theorem mine_contract_errors (b : Block.t) (difficulty : string) (fuel : nat) :
  (String.length difficulty ≠ 64%nat →
     Block.mine fuel b difficulty = Some (Raise AssertionError))
  ∧ (String.length difficulty = 64%nat →
     (∀ target, Py.int16 difficulty ≠ Ok target) →
     Block.mine fuel b difficulty = Some (Raise ValueError)).
Proof.
  unfold Block.mine. split.
  - intros Hlen. apply Nat.eqb_neq in Hlen. by rewrite Hlen.
  - intros Hlen Hbad. rewrite Hlen. simpl.
    destruct (Py.int16 difficulty) as [target|e] eqn:E; [by destruct (Hbad target)|].
    by rewrite (int16_raises_value_error _ _ E).
Qed.

Lemma mine_contract_errors_witness :
  Block.mine 0 unminable_block "ffff" = Some (Raise AssertionError)
  ∧ Block.mine 0 unminable_block bad_difficulty = Some (Raise ValueError).
Proof.
  split.
  - apply (proj1 (mine_contract_errors unminable_block "ffff" 0)). simpl. lia.
  - apply (proj2 (mine_contract_errors unminable_block bad_difficulty 0));
      [reflexivity|]. intros target. vm_compute. discriminate.
Defined.

(** X17. A block that [mine] returns is sealed: it holds the transactions
    and the previous hash it was given, its nonce is not below the initial
    one, and computing its hash again gives the hash it stores. *)
Theorem mine_seals_block (fuel : nat) (b b' : Block.t) (difficulty : string) :
  Block.mine fuel b difficulty = Some (Ok b') →
  Block.transactions b' = Block.transactions b
  ∧ Block.previous_hash b' = Block.previous_hash b
  ∧ Block.nonce b ≤ Block.nonce b'
  ∧ Block.calculate_hash b' = Ok (Block.hash b').
Proof.
  intros H. apply mine_Ok in H as (target & root & _ & _ & Hroot & H).
  apply (mine_loop_sound _ _ _ _ root Hroot) in H as (Htx & Hprev & Hle & Hhash & _).
  repeat split; try done.
  unfold Block.calculate_hash, Block.merkle_root in *.
  rewrite Htx, Hroot. simpl. by rewrite Hprev, Hhash.
Qed.

Lemma mine_seals_block_witness :
  Block.calculate_hash
    (Block.mk [] Miner.genesis_hash 1
       "2dc8d0d2cccb02ea5cca42cbf6abf9a9ca8ff187aa3adad9f7832a1e475a7b0a")
  = Ok "2dc8d0d2cccb02ea5cca42cbf6abf9a9ca8ff187aa3adad9f7832a1e475a7b0a".
Proof.
  apply (mine_seals_block 2 empty_block
           (Block.mk [] Miner.genesis_hash 1
              "2dc8d0d2cccb02ea5cca42cbf6abf9a9ca8ff187aa3adad9f7832a1e475a7b0a")
           easy_difficulty).
  vm_compute. reflexivity.
Defined.

(** X18. With a target that no digest is below (a difficulty whose value
    is 0 or negative, such as 64 zeros), the loop of [mine] never leaves on
    a block with a Merkle root: every budget runs out. *)
Theorem mine_never_returns_on_zero_target (b : Block.t) (difficulty root : string)
    (target : Z) :
  String.length difficulty = 64%nat →
  Py.int16 difficulty = Ok target → target ≤ 0 →
  Block.merkle_root b = Ok root →
  ∀ fuel, Block.mine fuel b difficulty = None.
Proof.
  intros Hlen Ht Hneg Hroot fuel. rewrite (mine_unfold _ _ _ _ Hlen Ht).
  revert b Hroot. induction fuel as [|fuel IH]; intros b Hroot; [reflexivity|].
  cbn [Block.mine_loop]. rewrite (calculate_hash_Ok b root Hroot).
  destruct (hash_value_Ok (Block.previous_hash b) (Block.nonce b) root)
    as (v & Hv & Hrange).
  unfold Block.hash_value in Hv. rewrite Hv.
  assert ((v <? target) = false) as -> by (apply Z.ltb_ge; lia).
  apply IH. exact Hroot.
Qed.

Lemma mine_never_returns_on_zero_target_witness :
  Block.mine 5 empty_block zero_difficulty = None.
Proof.
  apply (mine_never_returns_on_zero_target empty_block zero_difficulty
           "e3b0c44298fc1c149afbf4c8996fb92427ae41e4649b934ca495991b7852b855" 0);
    [reflexivity | vm_compute; reflexivity | lia | vm_compute; reflexivity].
Defined.

Lemma mine_loop_raise (fuel : nat) (target : Z) (b : Block.t) (e : exn) :
  Block.mine_loop fuel target b = Some (Raise e) → Block.merkle_root b = Raise e.
Proof.
  revert b. induction fuel as [|fuel IH]; intros b H; [discriminate|].
  cbn [Block.mine_loop] in H.
  destruct (Block.merkle_root b) as [root|e'] eqn:Hroot.
  - rewrite (calculate_hash_Ok b root Hroot) in H.
    destruct (hash_value_Ok (Block.previous_hash b) (Block.nonce b) root)
      as (v & Hv & _).
    unfold Block.hash_value in Hv. rewrite Hv in H.
    destruct (v <? target); [discriminate|].
    apply IH in H. unfold Block.merkle_root in *. simpl in H. congruence.
  - unfold Block.calculate_hash in H. rewrite Hroot in H. simpl in H. congruence.
Qed.

(** X19. With a difficulty that passes the contract, [mine] raises only
    what the Merkle root raises: reading the digest back with
    [int(_, 16)] never fails, an exception of [mine] is the exception of
    [merkle_root], and a block whose Merkle root raises makes [mine] raise
    it at the first iteration. *)
Theorem mine_raises_what_merkle_root_raises (b : Block.t) (difficulty : string)
    (target : Z) (e : exn) :
  String.length difficulty = 64%nat →
  Py.int16 difficulty = Ok target →
  (∀ fuel, Block.mine fuel b difficulty = Some (Raise e) →
     Block.merkle_root b = Raise e)
  ∧ (Block.merkle_root b = Raise e →
     ∀ fuel, Block.mine (S fuel) b difficulty = Some (Raise e)).
Proof.
  intros Hlen Ht. split.
  - intros fuel H. rewrite (mine_unfold _ _ _ _ Hlen Ht) in H.
    by apply mine_loop_raise in H.
  - intros Hroot fuel. rewrite (mine_unfold _ _ _ _ Hlen Ht).
    cbn [Block.mine_loop]. unfold Block.calculate_hash. by rewrite Hroot.
Qed.

Lemma mine_raises_what_merkle_root_raises_witness :
  Block.mine 3 unminable_block easy_difficulty = Some (Raise IndexError).
Proof.
  apply (proj2 (mine_raises_what_merkle_root_raises unminable_block easy_difficulty
                  (Z.shiftl 46 248) IndexError eq_refl
                  ltac:(vm_compute; reflexivity))).
  reflexivity.
Defined.

(** ** The ledger invariant *)

Lemma linked_from_snoc (blocks : list Block.t) (b : Block.t) (prev : string) :
  linked_from prev (blocks ++ [b])
  ↔ linked_from prev blocks
    ∧ Block.previous_hash b
      = match last blocks with None => prev | Some tip => Block.hash tip end.
Proof.
  revert prev. induction blocks as [|x blocks IH]; intros prev; simpl.
  - tauto.
  - rewrite IH, last_cons. destruct (last blocks); tauto.
Qed.

(** X20. On a linked ledger, the ledger that [add_block] returns is linked
    exactly when the appended block points to the hash of the old tip (to
    the genesis value on an empty ledger): keeping the chain linked is
    left to the caller. *)
Theorem add_block_linked_iff (chain chain' : Blockchain.t) (block : Block.t) :
  linked chain →
  Blockchain.add_block chain block = Ok chain' →
  (linked chain' ↔ Block.previous_hash block = tip_hash chain).
Proof.
  unfold linked, tip_hash. intros Hlinked H. injection H as <-. simpl.
  rewrite linked_from_snoc. tauto.
Qed.

Lemma add_block_linked_iff_witness :
  ¬ linked (Blockchain.mk [first_block; stray_block])
  ∧ linked (Blockchain.mk [first_block; sealed_block "aa" "cc"]).
Proof.
  assert (linked (Blockchain.mk [first_block])) as H by (repeat split).
  split.
  - intros Hl.
    apply (add_block_linked_iff (Blockchain.mk [first_block]) _ stray_block H eq_refl)
      in Hl.
    discriminate.
  - by apply (add_block_linked_iff (Blockchain.mk [first_block]) _
                (sealed_block "aa" "cc") H eq_refl).
Defined.

(** ** Miner *)

Lemma with_pool_same (m : Miner.t) : with_pool m (Miner.transactions m) = m.
Proof. by destruct m. Qed.

Lemma load_transactions_Ok (records : list pydict) :
  ∀ m, Forall (no_raise (Miner.utxo_set m)) records →
       Miner.load_transactions m records = Ok (loaded m records).
Proof.
  induction records as [|data records IH]; intros m Hall; simpl.
  - unfold loaded. simpl. by rewrite app_nil_r, with_pool_same.
  - inversion Hall as [|? ? (ok & Hok) Hrest]; subst.
    unfold Miner.load_transaction. rewrite Hok. simpl.
    unfold loaded, accepted_by. simpl. rewrite Hok. destruct ok.
    + rewrite IH by done. unfold loaded, with_pool. simpl.
      by rewrite <- app_assoc.
    + by rewrite IH.
Qed.

Lemma load_transactions_Ok_inv (records : list pydict) :
  ∀ m m', Miner.load_transactions m records = Ok m' →
          Forall (no_raise (Miner.utxo_set m)) records.
Proof.
  induction records as [|data records IH]; intros m m' H; [constructor|].
  simpl in H. apply bind_Ok in H as (m1 & H1 & H).
  unfold Miner.load_transaction in H1. apply bind_Ok in H1 as (ok & Hok & H1).
  constructor; [by exists ok|].
  apply IH in H. injection H1 as <-. by destruct ok.
Qed.

(** X21. [load_transactions] returns exactly when no record makes
    [is_valid] raise, and then the pool is the old pool followed by the
    accepted records, in the order given, each paired with the miner's
    UTXO set; nothing else of the miner changes. *)
Theorem load_transactions_keeps_accepted (m m' : Miner.t) (records : list pydict) :
  Miner.load_transactions m records = Ok m'
  ↔ Forall (no_raise (Miner.utxo_set m)) records ∧ m' = loaded m records.
Proof.
  split.
  - intros H. pose proof (load_transactions_Ok_inv _ _ _ H) as Hall.
    rewrite (load_transactions_Ok _ _ Hall) in H. by simplify_eq.
  - intros [Hall ->]. by apply load_transactions_Ok.
Qed.

Lemma load_transactions_keeps_accepted_witness :
  Miner.transactions
    (loaded (Miner.init "./mempool/")
       [sample_record [sample_input "aa" 0 5] 3;
        sample_record [sample_input "bb" 0 5] 9;
        sample_record [sample_input "cc" 0 5] 1])
  = [Transaction.mk (sample_record [sample_input "aa" 0 5] 3) ∅;
     Transaction.mk (sample_record [sample_input "cc" 0 5] 1) ∅]
  ∧ Miner.load_transactions (Miner.init "./mempool/")
      [sample_record [sample_input "aa" 0 5] 3;
       sample_record [sample_input "bb" 0 5] 9;
       sample_record [sample_input "cc" 0 5] 1]
    = Ok (loaded (Miner.init "./mempool/")
            [sample_record [sample_input "aa" 0 5] 3;
             sample_record [sample_input "bb" 0 5] 9;
             sample_record [sample_input "cc" 0 5] 1]).
Proof.
  split; [vm_compute; reflexivity|].
  apply load_transactions_keeps_accepted. split; [|reflexivity].
  repeat constructor; eexists; vm_compute; reflexivity.
Defined.

(** X22. One record on which [is_valid] raises aborts the whole load with
    that exception, whatever was accepted before it and whatever comes
    after it. *)
Theorem load_transactions_aborts (m : Miner.t) (pre post : list pydict)
    (bad : pydict) (e : exn) :
  Forall (no_raise (Miner.utxo_set m)) pre →
  Transaction.is_valid (Transaction.mk bad (Miner.utxo_set m)) = Raise e →
  Miner.load_transactions m (pre ++ bad :: post) = Raise e.
Proof.
  revert m. induction pre as [|data pre IH]; intros m Hpre Hbad; simpl.
  - unfold Miner.load_transaction. by rewrite Hbad.
  - inversion Hpre as [|? ? (ok & Hok) Hrest]; subst.
    unfold Miner.load_transaction. rewrite Hok. simpl.
    destruct ok; apply IH; done.
Qed.

Lemma load_transactions_aborts_witness :
  Miner.load_transactions (Miner.init "./mempool/")
    [sample_record [sample_input "aa" 0 5] 3; coinbase_pair_record;
     sample_record [sample_input "cc" 0 5] 1]
  = Raise KeyError.
Proof.
  apply (load_transactions_aborts (Miner.init "./mempool/")
           [sample_record [sample_input "aa" 0 5] 3]
           [sample_record [sample_input "cc" 0 5] 1] coinbase_pair_record).
  - repeat constructor. eexists. vm_compute. reflexivity.
  - vm_compute. reflexivity.
Defined.

(** X23. What [mine_block] changes: the ledger gains the returned block as
    its new tip and stays linked if it was, while the pool, the difficulty
    and the UTXO set are as before, so the mined transactions stay in the
    pool and the next call selects the same ones again. *)
Theorem mine_block_effects (fuel : nat) (m m' : Miner.t) (block : Block.t) :
  Miner.mine_block fuel m = Some (Ok (m', block)) →
  Blockchain.blocks (Miner.blockchain m')
  = Blockchain.blocks (Miner.blockchain m) ++ [block]
  ∧ (linked (Miner.blockchain m) → linked (Miner.blockchain m'))
  ∧ Miner.transactions m' = Miner.transactions m
  ∧ Miner.difficulty m' = Miner.difficulty m
  ∧ Miner.utxo_set m' = Miner.utxo_set m
  ∧ Miner.select_transactions_for_block m' = Block.transactions block.
Proof.
  intros H. destruct (mine_block_links_to_tip _ _ _ _ H) as (Hprev & Htx & Hblocks).
  unfold Miner.mine_block in H.
  destruct (Block.mine fuel _ _) as [[sealed|e]|]; try discriminate.
  simpl in H. simplify_eq. simpl in *. repeat split; try done.
  unfold linked. simpl. rewrite linked_from_snoc. tauto.
Qed.

Lemma mine_block_effects_witness :
  ∃ m' block,
    Miner.mine_block 1 (sample_miner_with all_f [sample_tx "a0"]) = Some (Ok (m', block))
    ∧ Miner.transactions m' = [sample_tx "a0"]
    ∧ Miner.select_transactions_for_block m' = Block.transactions block.
Proof.
  destruct (Miner.mine_block 1 (sample_miner_with all_f [sample_tx "a0"]))
    as [[[m' block]|]|] eqn:E; try (exfalso; vm_compute in E; discriminate).
  exists m', block. split; [reflexivity|].
  destruct (mine_block_effects _ _ _ _ E) as (_ & _ & Hpool & _ & _ & Hsel).
  split; [exact Hpool | exact Hsel].
Defined.

(** ** From the mempool to the output file *)





Example mine_block_on_mined_records :
  ∃ m', Miner.mine_block 6 mined_miner
        = Some (Ok (m', Block.mk (Miner.transactions mined_miner)
                          Miner.genesis_hash 5 mined_hash)).
Proof. eexists. vm_compute. reflexivity. Qed.







(** ** Selection, for every pool size *)

(** X26. Whatever the size of the pool, the selection never fails and is
    the prefix of the pool of length [min 10 n]: pools of 10 to 14
    transactions also give their first ten. *)
Theorem select_is_prefix (m : Miner.t) :
  length (Miner.select_transactions_for_block m)
  = Nat.min 10 (length (Miner.transactions m))
  ∧ ∃ rest, Miner.transactions m = Miner.select_transactions_for_block m ++ rest
      ∧ (rest ≠ [] → length (Miner.select_transactions_for_block m) = 10%nat).
Proof.
  unfold Miner.select_transactions_for_block. split; [apply length_take|].
  exists (drop 10 (Miner.transactions m)). split; [by rewrite take_drop|].
  intros Hrest. rewrite length_take.
  destruct (decide (length (Miner.transactions m) ≤ 10)%nat) as [Hle|]; [|lia].
  destruct Hrest. by apply drop_ge.
Qed.
